(** * friendly-data-server: the question-answering pipeline of [src/server.js]

    A shallow embedding of the Express/Slack server: the prompt composer
    ([aiPrompt + question]), the pipeline [queryDatabase], the two entry
    points ([POST /ask] and the [app_mention] handler) and the Block Kit
    renderer [convertJsonToSlackBlocks], together with the part of the
    JavaScript run time they rest on (dynamic values, string conversion,
    the [Date] constructor, property access).

    Conventions.
    - A JavaScript string is a [string] of bytes (UTF-8).  Every character
      the code inspects ([_], the class [\w], the letters of "date" and
      "time") is ASCII, so the byte view and the UTF-16 view agree on what
      the code does with it.
    - A JavaScript number is a double ([float]); it is printed by
      [Number_toString], the shortest digits that read back as the same
      double.  A time value, which is [NaN] or an integer of at most
      8.64e15 in magnitude, and the epoch seconds computed from it are a
      [JsNumber].
    - An object is a plain object as [JSON.parse] and node-postgres build
      them: its properties are its own data properties, its prototype is
      [Object.prototype].  Such an object has a string form unless it has
      an own property [toString], which hides the inherited method.
    - An exception is a value [Throw e] of [Outcome]; code that calls the
      outside world (translator, data store, chat platform, console) runs in
      the monad [IO], which threads the log of those calls.
    - The start-up code (environment, middleware, [app.listen]) takes no
      part in a request and is not modelled. *)

From Stdlib Require Import String Ascii ZArith List Bool Lia DecimalString.
From Stdlib Require Import PrimFloat SpecFloat FloatOps.
Import ListNotations.

Set Warnings "-register-all".

Local Open Scope string_scope.
Local Open Scope Z_scope.

(* ================================================================= *)
(** ** Exceptions and outcomes *)

(** The error objects the code throws or lets through: [new Error(msg)],
    the engine's [TypeError], and the rejections of axios and pg, which
    are [Error] objects too. *)
Inductive JsError : Type :=
| Error (message : string)
| TypeError (message : string).

Inductive Outcome (A : Type) : Type :=
| Ok (a : A)
| Throw (e : JsError).

Arguments Ok {A} a.
Arguments Throw {A} e.

Definition obind {A B : Type} (m : Outcome A) (k : A -> Outcome B) : Outcome B :=
  match m with
  | Ok a => k a
  | Throw e => Throw e
  end.

(** [try { body } catch (error) { handler }] *)
Definition tryCatch {A : Type} (body : Outcome A) (handler : JsError -> Outcome A)
  : Outcome A :=
  match body with
  | Ok a => Ok a
  | Throw e => handler e
  end.

Declare Scope outcome_scope.
Delimit Scope outcome_scope with outcome.
Notation "x <- m ;; k" := (obind m (fun x => k))
  (at level 61, m at next level, right associativity) : outcome_scope.

(* ================================================================= *)
(** ** JavaScript values *)

(** A time value or a number computed from one: [NaN] or an integer. *)
Inductive JsNumber : Type :=
| NaN
| Num (z : Z).

(** What a row of [results.rows], a field of a row, the request body's
    [question] or the translator's response envelope can be.  An object is
    the list of its own enumerable properties in enumeration order (the
    order [Object.entries] yields); a [Date] object is its time value. *)
Inductive JsValue : Type :=
| JUndefined
| JNull
| JBool (b : bool)
| JNumber (x : float)
| JString (s : string)
| JDate (tv : JsNumber)
| JArray (elems : list JsValue)
| JObject (props : list (string * JsValue)).

(** What of the host the code's results depend on and ECMAScript leaves to
    the implementation: the local time zone, the date formats [Date.parse]
    accepts besides the ECMAScript one, and how [Date.prototype.toString]
    prints a valid time value. *)
Record Host : Type := {
  localTZA : Z -> Z;
  legacyDateParse : string -> JsNumber;
  dateToString : Z -> string
}.

(* ----------------------------------------------------------------- *)
(** *** Characters and strings *)

Definition charCode (c : ascii) : Z := Z.of_N (N_of_ascii c).

Definition inRange (lo hi : Z) (c : ascii) : bool :=
  (lo <=? charCode c) && (charCode c <=? hi).

Definition isDigit (c : ascii) : bool := inRange 48 57 c.
Definition isUpper (c : ascii) : bool := inRange 65 90 c.
Definition isLower (c : ascii) : bool := inRange 97 122 c.

(** The regular expression class [\w]: [A-Za-z0-9_]. *)
Definition isWordChar (c : ascii) : bool :=
  isUpper c || isLower c || isDigit c || (charCode c =? 95).

Definition charToUpperCase (c : ascii) : ascii :=
  if isLower c then ascii_of_N (N_of_ascii c - 32) else c.

Definition charToLowerCase (c : ascii) : ascii :=
  if isUpper c then ascii_of_N (N_of_ascii c + 32) else c.

(** [s.toLowerCase()].  Outside ASCII the only characters whose lower case
    holds an ASCII letter are U+0130 (to [i] followed by U+0307) and U+212A
    (to [k]); neither can complete "date" or "time", so [isDateKey] below
    is not affected by leaving non-ASCII bytes as they are. *)
Fixpoint toLowerCase (s : string) : string :=
  match s with
  | EmptyString => EmptyString
  | String c r => String (charToLowerCase c) (toLowerCase r)
  end.

(** [s.includes(needle)] *)
Fixpoint includes (s needle : string) : bool :=
  prefix needle s ||
  match s with
  | EmptyString => false
  | String _ r => includes r needle
  end.

(** [key.replace(/_/g, ' ')] *)
Fixpoint replaceUnderscores (s : string) : string :=
  match s with
  | EmptyString => EmptyString
  | String c r =>
      String (if (charCode c =? 95) then " "%char else c) (replaceUnderscores r)
  end.

(** [s.replace(/\b\w/g, (char) => char.toUpperCase())]: [\b\w] matches a
    word character that stands at the start of the string or after a
    character that is not a word character.  [prevIsWord] says whether the
    character before the rest [s] is a word character. *)
Fixpoint upperCaseWordStarts (prevIsWord : bool) (s : string) : string :=
  match s with
  | EmptyString => EmptyString
  | String c r =>
      String (if isWordChar c && negb prevIsWord then charToUpperCase c else c)
             (upperCaseWordStarts (isWordChar c) r)
  end.

(* ----------------------------------------------------------------- *)
(** *** Numbers *)

Definition decimal (z : Z) : string := NilZero.string_of_int (Z.to_int z).

(** [String(n)] for [NaN] and the integers the code prints, epoch seconds
    and indices: the decimal digits, with a minus sign when negative.
    (Both are below 2^53 in magnitude, where every integer is a double and
    is printed digit by digit.) *)
Definition numberToString (n : JsNumber) : string :=
  match n with
  | NaN => "NaN"
  | Num z => decimal z
  end.

(** [Math.floor(n / d)] for a positive integer [d]: the quotient rounded
    down, [NaN] for [NaN]. *)
Definition Math_floor_div (n : JsNumber) (d : Z) : JsNumber :=
  match n with
  | NaN => NaN
  | Num z => Num (z / d)
  end.

(** [TimeClip]: a time value is at most 8.64e15 ms away from the epoch. *)
Definition TimeClip (n : JsNumber) : JsNumber :=
  match n with
  | NaN => NaN
  | Num z => if Z.abs z <=? 8640000000000000 then Num z else NaN
  end.

(** [ToIntegerOrInfinity(x)] of a finite double, the integer part towards
    zero; [NaN] for [NaN] and the infinities, which [TimeClip] refuses
    alike. *)
Definition integerPart (x : float) : JsNumber :=
  match Prim2SF x with
  | S754_zero _ => Num 0
  | S754_finite negative m e =>
      let magnitude := if 0 <=? e then Zpos m * 2 ^ e else Zpos m / 2 ^ (- e) in
      Num (if negative then - magnitude else magnitude)
  | S754_infinity _ | S754_nan => NaN
  end.

(* ----------------------------------------------------------------- *)
(** *** Number::toString

    A finite double [m * 2^e] other than zero is printed with the fewest
    digits [s] (of [k] digits) and the exponent [p] such that [s * 10^p]
    reads back as the same double, the closest such decimal when there are
    several; the layout depends on where the decimal point falls. *)

(** [a * 10^p <= b], for an exponent of either sign. *)
Definition leScaled (a b p : Z) : bool :=
  if 0 <=? p then a * 10 ^ p <=? b else a <=? b * 10 ^ (- p).

(** The [n] with [10^(n-1) <= V/D < 10^n], for positive [V] and [D]. *)
Definition decimalExponent (V D : Z) : Z :=
  let est := (Z.log2 V - Z.log2 D) * 30103 / 100000 in
  match find (fun n => leScaled D V (n - 1) && negb (leScaled D V n))
             [est - 2; est - 1; est; est + 1; est + 2; est + 3] with
  | Some n => n
  | None => est
  end.

(** The decimal [s * 10^p] with [s] of [k] digits that reads back as
    [m * 2^e], if there is one.  [L/D] and [H/D] are the midpoints to the
    neighbouring doubles (the lower neighbour is at half the distance when
    [m] is the least mantissa of its binade); they belong to the interval
    when [m] is even, as ties round to even. *)
Definition shortestAt (m e : Z) (k : Z) : option (Z * Z) :=
  let shift := e - 2 in
  let up := if 0 <=? shift then 2 ^ shift else 1 in
  let D := if 0 <=? shift then 1 else 2 ^ (- shift) in
  let closerBelow := (m =? 2 ^ 52) && (-1074 <? e) in
  let V := 4 * m * up in
  let H := (4 * m + 2) * up in
  let L := (4 * m - (if closerBelow then 1 else 2)) * up in
  let inclusive := Z.even m in
  let n := decimalExponent V D in
  let p := n - k in
  let A := if 0 <=? p then 10 ^ p * D else D in
  let B := if 0 <=? p then 1 else 10 ^ (- p) in
  let inside := fun s =>
    if inclusive then (L * B <=? s * A) && (s * A <=? H * B)
    else (L * B <? s * A) && (s * A <? H * B) in
  let low := (V * B) / A in
  let high := low + 1 in
  let dLow := V * B - low * A in
  let dHigh := high * A - V * B in
  match inside low, inside high with
  | true, true =>
      if dLow <? dHigh then Some (low, p)
      else if dHigh <? dLow then Some (high, p)
      else Some (if Z.even low then low else high, p)
  | true, false => Some (low, p)
  | false, true => Some (high, p)
  | false, false => None
  end.

(** The first [k], counting up, at which there is such a decimal;
    seventeen digits always suffice. *)
Fixpoint shortestFrom (m e : Z) (k : Z) (fuel : nat) : Z * Z :=
  match fuel with
  | O => (m, 0)
  | S fuel' =>
      match shortestAt m e k with
      | Some r => r
      | None => shortestFrom m e (k + 1) fuel'
      end
  end.

(** [s * 10^p] with the trailing zeros of [s] moved into the exponent. *)
Fixpoint stripZeros (s p : Z) (fuel : nat) : Z * Z :=
  match fuel with
  | O => (s, p)
  | S fuel' =>
      if (0 <? s) && (s mod 10 =? 0) then stripZeros (s / 10) (p + 1) fuel'
      else (s, p)
  end.

Fixpoint zeros (n : nat) : string :=
  match n with
  | O => ""
  | S n' => "0" ++ zeros n'
  end.

(** The text of the positive number [s * 10^p]: with [n] the position of
    the decimal point, plain digits for [k <= n <= 21], a point inside the
    digits for [0 < n < k], leading zeros for [-6 < n <= 0], and exponent
    notation otherwise. *)
Definition formatDecimal (s p : Z) : string :=
  let ds := decimal s in
  let k := Z.of_nat (String.length ds) in
  let n := p + k in
  if (k <=? n) && (n <=? 21) then ds ++ zeros (Z.to_nat (n - k))
  else if (0 <? n) && (n <=? 21) then
    substring 0 (Z.to_nat n) ds ++ "." ++ substring (Z.to_nat n) (Z.to_nat (k - n)) ds
  else if (-6 <? n) && (n <=? 0) then "0." ++ zeros (Z.to_nat (- n)) ++ ds
  else
    let exponent := (if 0 <=? n - 1 then "+" else "-") ++ decimal (Z.abs (n - 1)) in
    if k =? 1 then ds ++ "e" ++ exponent
    else substring 0 1 ds ++ "." ++ substring 1 (Z.to_nat (k - 1)) ds ++ "e" ++ exponent.

(** [String(x)] for a double. *)
Definition Number_toString (x : float) : string :=
  match Prim2SF x with
  | S754_nan => "NaN"
  | S754_zero _ => "0"
  | S754_infinity negative => if negative then "-Infinity" else "Infinity"
  | S754_finite negative m e =>
      let '(s, p) := shortestFrom (Zpos m) e 1 17 in
      let '(s', p') := stripZeros s p 20 in
      (if negative then "-" else "") ++ formatDecimal s' p'
  end.

(* ----------------------------------------------------------------- *)
(** *** String conversion *)

Definition isNullish (v : JsValue) : bool :=
  match v with
  | JUndefined | JNull => true
  | _ => false
  end.

(** [Object.prototype.hasOwnProperty.call(o, name)] on the properties of
    a plain object. *)
Definition hasOwnProperty (name : string) (props : list (string * JsValue)) : bool :=
  existsb (fun entry => String.eqb (fst entry) name) props.

(** [Array.prototype.join] with the separator [","]: the elements from
    left to right, each through [element]; [first] says whether the next
    element is the first, which has no comma before it. *)
Fixpoint joinElements (element : JsValue -> Outcome string) (first : bool)
         (elems : list JsValue) : Outcome string :=
  match elems with
  | [] => Ok ""
  | x :: rest =>
      (s <- element x ;;
       t <- joinElements element false rest ;;
       Ok ((if first then "" else ",") ++ s ++ t))%outcome
  end.

(** [ToString(v)], which is what a template literal's [${v}] applies, and
    the operator [+] with a string on the left (for the values here
    [ToPrimitive] with either hint ends in the same method).  An array
    prints as its elements joined by commas, [null] and [undefined]
    elements as the empty string.  A plain object prints as [[object
    Object]] through the inherited [toString]; when it has an own property
    [toString], which is not a function, and so no method that yields a
    primitive, the conversion throws. *)
Fixpoint ToString (h : Host) (v : JsValue) : Outcome string :=
  match v with
  | JUndefined => Ok "undefined"
  | JNull => Ok "null"
  | JBool true => Ok "true"
  | JBool false => Ok "false"
  | JNumber x => Ok (Number_toString x)
  | JString s => Ok s
  | JDate NaN => Ok "Invalid Date"
  | JDate (Num t) => Ok (dateToString h t)
  | JArray elems =>
      joinElements (fun x => if isNullish x then Ok "" else ToString h x) true elems
  | JObject props =>
      if hasOwnProperty "toString" props
      then Throw (TypeError "Cannot convert object to primitive value")
      else Ok "[object Object]"
  end.

(** [value.toString()]: a method call.  It throws on [null] and
    [undefined], which have no properties, and on a plain object whose own
    property [toString] hides the method; on every other value the method
    found is the one [ToString] ends in. *)
Definition toStringMethod (h : Host) (value : JsValue) : Outcome string :=
  match value with
  | JUndefined =>
      Throw (TypeError "Cannot read properties of undefined (reading 'toString')")
  | JNull =>
      Throw (TypeError "Cannot read properties of null (reading 'toString')")
  | JObject props =>
      if hasOwnProperty "toString" props
      then Throw (TypeError "value.toString is not a function")
      else Ok "[object Object]"
  | _ => ToString h value
  end.

(* ================================================================= *)
(** ** Dates *)

(** The calendar arithmetic of ECMAScript's "Time Values and Time Range":
    days are counted from 1 January 1970, months from 1 here. *)
Definition msPerDay : Z := 86400000.

Definition DayFromYear (y : Z) : Z :=
  365 * (y - 1970) + (y - 1969) / 4 - (y - 1901) / 100 + (y - 1601) / 400.

Definition InLeapYear (y : Z) : bool :=
  (y mod 4 =? 0) && (negb (y mod 100 =? 0) || (y mod 400 =? 0)).

Definition DaysInMonth (y m : Z) : Z :=
  if m =? 2 then (if InLeapYear y then 29 else 28)
  else if (m =? 4) || (m =? 6) || (m =? 9) || (m =? 11) then 30
  else 31.

Definition daysBeforeMonth (y m : Z) : Z :=
  nth (Z.to_nat (m - 1)) [0; 31; 59; 90; 120; 151; 181; 212; 243; 273; 304; 334] 0
  + (if InLeapYear y && (2 <? m) then 1 else 0).

Definition MakeDay (y m d : Z) : Z :=
  DayFromYear y + daysBeforeMonth y m + (d - 1).

Definition MakeTime (hh mm ss ms : Z) : Z :=
  hh * 3600000 + mm * 60000 + ss * 1000 + ms.

Definition MakeDate (day time : Z) : Z := day * msPerDay + time.

(* ----------------------------------------------------------------- *)
(** *** The ECMAScript date-time string format

    [YYYY], [YYYY-MM] or [YYYY-MM-DD] (the year also as a sign and six
    digits), then nothing or [THH:mm], [THH:mm:ss] or [THH:mm:ss.sss], and
    after a time nothing, [Z] or an offset [+HH:mm] / [-HH:mm].  A date
    alone is UTC; a date and time without offset is local time. *)

Definition digitValue (c : ascii) : option Z :=
  if isDigit c then Some (charCode c - 48) else None.

Fixpoint takeDigits (n : nat) (acc : Z) (s : string) : option (Z * string) :=
  match n with
  | O => Some (acc, s)
  | S n' =>
      match s with
      | EmptyString => None
      | String c r =>
          match digitValue c with
          | Some d => takeDigits n' (acc * 10 + d) r
          | None => None
          end
      end
  end.

Definition mbind {A B : Type} (m : option A) (k : A -> option B) : option B :=
  match m with
  | Some a => k a
  | None => None
  end.

Declare Scope parse_scope.
Delimit Scope parse_scope with parse.
Notation "' p <- m ;; k" := (mbind m (fun x => let 'p := x in k))
  (at level 61, p pattern, m at next level, right associativity) : parse_scope.

Definition guard (b : bool) : option unit := if b then Some tt else None.

Definition parseYear (s : string) : option (Z * string) :=
  match s with
  | String "+" r => takeDigits 6 0 r
  | String "-" r =>
      ('(y, r') <- takeDigits 6 0 r ;;
       '_ <- guard (negb (y =? 0)) ;;
       Some (- y, r'))%parse
  | _ => takeDigits 4 0 s
  end.

(** An optional [-NN]: the value read, or [default] when the rest does not
    start with a hyphen. *)
Definition parseOptField (default : Z) (s : string) : option (Z * string) :=
  match s with
  | String "-" r => takeDigits 2 0 r
  | _ => Some (default, s)
  end.

(** [ss] and [.sss] after [HH:mm]. *)
Definition parseSeconds (s : string) : option (Z * Z * string) :=
  match s with
  | String ":" r =>
      ('(ss, r1) <- takeDigits 2 0 r ;;
       match r1 with
       | String "." r2 =>
           ('(ms, r3) <- takeDigits 3 0 r2 ;; Some (ss, ms, r3))
       | _ => Some (ss, 0, r1)
       end)%parse
  | _ => Some (0, 0, s)
  end.

(** The offset in minutes east of UTC, [None] where the string gives none. *)
Definition parseOffset (s : string) : option (option Z) :=
  match s with
  | EmptyString => Some None
  | String "Z" EmptyString => Some (Some 0)
  | String sign r =>
      ('_ <- guard (Ascii.eqb sign "+" || Ascii.eqb sign "-") ;;
       '(oh, r1) <- takeDigits 2 0 r ;;
       match r1 with
       | String ":" r2 =>
           ('(om, r3) <- takeDigits 2 0 r2 ;;
            '_ <- guard ((oh <=? 23) && (om <=? 59)) ;;
            match r3 with
            | EmptyString =>
                Some (Some ((if Ascii.eqb sign "-" then -1 else 1) * (oh * 60 + om)))
            | _ => None
            end)
       | _ => None
       end)%parse
  end.

(** The time value of a string in the format, [None] when the string is
    not in the format or an element is out of range. *)
Definition parseIsoDate (h : Host) (s : string) : option Z :=
  ('(y, r0) <- parseYear s ;;
   '(m, r1) <- parseOptField 1 r0 ;;
   '(d, r2) <- match r0 with
               | String "-" _ => parseOptField 1 r1
               | _ => Some (1, r1)
               end ;;
   '_ <- guard ((1 <=? m) && (m <=? 12) && (1 <=? d) && (d <=? DaysInMonth y m)) ;;
   let day := MakeDay y m d in
   match r2 with
   | EmptyString => Some (MakeDate day 0)
   | String "T" r3 =>
       ('(hh, r4) <- takeDigits 2 0 r3 ;;
        match r4 with
        | String ":" r5 =>
            ('(mm, r6) <- takeDigits 2 0 r5 ;;
             '(ss, ms, r7) <- parseSeconds r6 ;;
             '_ <- guard ((hh <=? 24) && (mm <=? 59) && (ss <=? 59)) ;;
             '_ <- guard ((hh <? 24) || ((mm =? 0) && (ss =? 0) && (ms =? 0))) ;;
             'offset <- parseOffset r7 ;;
             let t := MakeDate day (MakeTime hh mm ss ms) in
             match offset with
             | Some minutes => Some (t - minutes * 60000)
             | None => Some (t - localTZA h t)
             end)
        | _ => None
        end)
   | _ => None
   end)%parse.

(** [Date.parse(s)]: the format above is the one every engine must accept;
    what an engine makes of any other string is its own affair
    ([legacyDateParse]). *)
Definition Date_parse (h : Host) (s : string) : JsNumber :=
  match parseIsoDate h s with
  | Some t => TimeClip (Num t)
  | None => TimeClip (legacyDateParse h s)
  end.

(** [new Date(value)], as the time value of the object built.  A [Date]
    argument gives its own time value (a time value is always within
    [TimeClip]); a string is parsed; an array or an object is first
    converted to a primitive, its string form, which is then parsed, and
    the constructor throws when that conversion does; [undefined], [null],
    booleans and numbers are converted to a number. *)
Definition Date_new (h : Host) (value : JsValue) : Outcome JsNumber :=
  match value with
  | JDate tv => Ok (TimeClip tv)
  | JString s => Ok (Date_parse h s)
  | JArray _ | JObject _ =>
      (primitive <- ToString h value ;; Ok (Date_parse h primitive))%outcome
  | JUndefined => Ok NaN
  | JNull => Ok (Num 0)
  | JBool b => Ok (Num (if b then 1 else 0))
  | JNumber x => Ok (TimeClip (integerPart x))
  end.

(** [date.getTime()] *)
Definition getTime (date : JsNumber) : JsNumber := date.

(* ----------------------------------------------------------------- *)
(** *** A host in UTC

    The concrete host the examples are evaluated on: its clock is UTC, it
    knows no date format besides the ECMAScript one, and it prints dates
    the way [Date.prototype.toString] lays them out. *)

Definition WeekDay (day : Z) : Z := (day + 4) mod 7.

(** Year, month (from 1) and day of the month of a day number. *)
Definition civilFromDays (day : Z) : Z * Z * Z :=
  let z := day + 719468 in
  let era := z / 146097 in
  let doe := z - era * 146097 in
  let yoe := (doe - doe / 1460 + doe / 36524 - doe / 146096) / 365 in
  let doy := doe - (365 * yoe + yoe / 4 - yoe / 100) in
  let mp := (5 * doy + 2) / 153 in
  let d := doy - (153 * mp + 2) / 5 + 1 in
  let m := if mp <? 10 then mp + 3 else mp - 9 in
  ((yoe + era * 400) + (if m <=? 2 then 1 else 0), m, d).

Definition pad2 (n : Z) : string :=
  (if n <? 10 then "0" else "") ++ numberToString (Num n).

Definition pad4 (n : Z) : string :=
  (if n <? 10 then "000" else if n <? 100 then "00" else if n <? 1000 then "0" else "")
  ++ numberToString (Num n).

Definition utcDateToString (t : Z) : string :=
  let day := t / msPerDay in
  let time := t mod msPerDay in
  let '(y, m, d) := civilFromDays day in
  nth (Z.to_nat (WeekDay day)) ["Sun"; "Mon"; "Tue"; "Wed"; "Thu"; "Fri"; "Sat"] ""
  ++ " "
  ++ nth (Z.to_nat (m - 1))
         ["Jan"; "Feb"; "Mar"; "Apr"; "May"; "Jun";
          "Jul"; "Aug"; "Sep"; "Oct"; "Nov"; "Dec"] ""
  ++ " " ++ pad2 d
  ++ " " ++ (if y <? 0 then "-" else "") ++ pad4 (Z.abs y)
  ++ " " ++ pad2 (time / 3600000)
  ++ ":" ++ pad2 ((time / 60000) mod 60)
  ++ ":" ++ pad2 ((time / 1000) mod 60)
  ++ " GMT+0000 (Coordinated Universal Time)".

Definition utcHost : Host := {|
  localTZA := fun _ => 0;
  legacyDateParse := fun _ => NaN;
  dateToString := utcDateToString
|}.

(* ================================================================= *)
(** ** Property access and enumeration *)

(** The own property [name] of an object, [undefined] where it has none. *)
Fixpoint lookupProp (name : string) (props : list (string * JsValue)) : JsValue :=
  match props with
  | [] => JUndefined
  | (k, v) :: rest => if String.eqb k name then v else lookupProp name rest
  end.

(** [o.name] for the names the code reads ([choices], [message],
    [content], [question]), none of which a built-in prototype defines: the
    read throws on [undefined] and [null], finds an own property of a plain
    object, and yields [undefined] on every other value. *)
Definition getProp (o : JsValue) (name : string) : Outcome JsValue :=
  match o with
  | JUndefined =>
      Throw (TypeError ("Cannot read properties of undefined (reading '" ++ name ++ "')"))
  | JNull =>
      Throw (TypeError ("Cannot read properties of null (reading '" ++ name ++ "')"))
  | JObject props => Ok (lookupProp name props)
  | _ => Ok JUndefined
  end.

Definition indexKey (i : nat) : string := numberToString (Num (Z.of_nat i)).

(** [o[i]] for an index [i]: an element of an array, a character of a
    string, the property of that name of a plain object. *)
Definition getIndex (o : JsValue) (i : nat) : Outcome JsValue :=
  match o with
  | JUndefined =>
      Throw (TypeError ("Cannot read properties of undefined (reading '" ++ indexKey i ++ "')"))
  | JNull =>
      Throw (TypeError ("Cannot read properties of null (reading '" ++ indexKey i ++ "')"))
  | JArray elems => Ok (nth i elems JUndefined)
  | JString s =>
      Ok (match get i s with
          | Some c => JString (String c EmptyString)
          | None => JUndefined
          end)
  | JObject props => Ok (lookupProp (indexKey i) props)
  | _ => Ok JUndefined
  end.

Fixpoint indexed {A : Type} (i : nat) (l : list A) : list (string * A) :=
  match l with
  | [] => []
  | x :: r => (indexKey i, x) :: indexed (S i) r
  end.

Fixpoint characters (s : string) : list JsValue :=
  match s with
  | EmptyString => []
  | String c r => JString (String c EmptyString) :: characters r
  end.

(** [Object.entries(data)]: the own enumerable string-keyed properties in
    order.  It throws on [undefined] and [null]; an array and a string have
    their indices as keys; numbers, booleans and dates have none. *)
Definition Object_entries (data : JsValue) : Outcome (list (string * JsValue)) :=
  match data with
  | JUndefined | JNull => Throw (TypeError "Cannot convert undefined or null to object")
  | JObject props => Ok props
  | JArray elems => Ok (indexed 0 elems)
  | JString s => Ok (indexed 0 (characters s))
  | JBool _ | JNumber _ | JDate _ => Ok []
  end.

(** [Array.isArray(v)] *)
Definition Array_isArray (v : JsValue) : bool :=
  match v with
  | JArray _ => true
  | _ => false
  end.

(** [arr.forEach((x, index) => ...)] where the callback updates state it
    closes over (here: the array it pushes to); an exception in the
    callback ends the loop and the state is lost with it. *)
Fixpoint forEach {A St : Type} (callback : St -> A -> nat -> Outcome St)
         (arr : list A) (index : nat) (state : St) : Outcome St :=
  match arr with
  | [] => Ok state
  | x :: rest =>
      obind (callback state x index) (forEach callback rest (S index))
  end.

(* ================================================================= *)
(** ** server.js: the prompt *)

Definition aiPrompt : string := "
                    The 'vm_simple_measures' view contains the following fields:
                    - 'id': integer
                    - 'measurement': string (name of the measurement)
                    - 'clinic_id': integer
                    - 'clinic_name': string
                    - 'public_patient_id': integer
                    - 'first_name': string
                    - 'last_name': string
                    - 'evaluation_date_time': timestamp
                    - 'answer_value': numeric (the value of the measurement) is double precision do not use in rounding

                    The 'vw_patients' view constains the following fields:
                    - 'public_patient_id'
                    - 'patient_id'
                    - 'patient_key'
                    - 'evaluation_count'
                    - 'last_name'
                    - 'first_name'
                    - 'clinic_name'
                    - 'dob'
                    - 'clinic_id'
                    - 'zip'
                    - 'sex'
                    - 'date_started'

                    Instructions for generating a SQL query based on the question at the end:
                    - Do not use single quotes around field names, view names or table names
                    - Based on the question, query one or both views described. Join if necessary
                    - If asking about measurements, vm_simple_measures is appropriate.
                    - If asking about patient info without measurements, use vw_patients
                    - Output only the SQL query without headers, human commentary, or tick marks.
                    - Use '%' wildcards with 'ILIKE' for partial matching in the 'measurement' field.
                    - Include 'DISTINCT' to ensure unique results.
                    - All non-aggregated fields should be in the 'GROUP BY' clause for aggregate queries.
                    - Do not use LAG and HAVING clauses in combination
                    - Always include an 'ORDER BY' clause.
                    - Convert dates and times to a short, friendly format.
                    - Include a 'running_avg' column if calculating an average over time.
                    - If the query involves trends, ensure the SQL reflects this.
                    - Provide 'evaluation_date_time' for each measurement.
                    - Remove script commentary and tick marks. Only return SQL
                    - IMPORTANT: Do not include explanations, comments, or annotations—return only the SQL query.
                    The question is: ".

(* ================================================================= *)
(** ** server.js: message conversion, from generic JSON to Block Kit *)

(** [{ type: 'mrkdwn', text }] *)
Record Field : Type := {
  type : string;
  text : string
}.

(** [{ type: 'section', fields }] and [{ type: 'divider' }] *)
Inductive Block : Type :=
| SectionBlock (fields : list Field)
| DividerBlock.

Definition blockType (b : Block) : string :=
  match b with
  | SectionBlock _ => "section"
  | DividerBlock => "divider"
  end.

(** [{ blocks }] *)
Record SlackMessage : Type := {
  blocks : list Block
}.

Definition newline : string := String (ascii_of_N 10) EmptyString.

(** [key.replace(/_/g, ' ').replace(/\b\w/g, (char) => char.toUpperCase())] *)
Definition formattedKey (key : string) : string :=
  upperCaseWordStarts false (replaceUnderscores key).

(** [key.toLowerCase().includes('date') || key.toLowerCase().includes('time')] *)
Definition isDateKey (key : string) : bool :=
  includes (toLowerCase key) "date" || includes (toLowerCase key) "time".

(** The template literal
    [`<!date^${unixTimestamp}^{date_short_pretty} at {time}|${value}>`]. *)
Definition dateTemplate (h : Host) (unixTimestamp : JsNumber) (value : JsValue)
  : Outcome string :=
  (raw <- ToString h value ;;
   Ok ("<!date^" ++ numberToString unixTimestamp ++ "^{date_short_pretty} at {time}|"
       ++ raw ++ ">"))%outcome.

(** The branches of [let formattedValue; if (...) { try {...} catch {...} }
    else {...}]. *)
Definition formattedValue (h : Host) (key : string) (value : JsValue) : Outcome string :=
  if isDateKey key then
    tryCatch
      (date <- Date_new h value ;;
       let unixTimestamp := Math_floor_div (getTime date) 1000 in
       dateTemplate h unixTimestamp value)%outcome
      (fun error => toStringMethod h value)
  else
    toStringMethod h value.

(** The body of [Object.entries(data).forEach(([key, value]) => ...)]:
    one field pushed to [section.fields]. *)
Definition pushField (h : Host) (fields : list Field) (entry : string * JsValue)
           (index : nat) : Outcome (list Field) :=
  let '(key, value) := entry in
  (fv <- formattedValue h key value ;;
   Ok (fields ++ [ {| type := "mrkdwn";
                      text := "*" ++ formattedKey key ++ ":*" ++ newline ++ fv |} ])%list)%outcome.

(** The body of [jsonData.forEach((data, index) => ...)]: the section of
    one row, and a divider before it unless it is the first. *)
Definition pushRow (h : Host) (blocks : list Block) (data : JsValue) (index : nat)
  : Outcome (list Block) :=
  (entries <- Object_entries data ;;
   fields <- forEach (pushField h) entries 0%nat [] ;;
   let blocks := if (0 <? index)%nat then (blocks ++ [DividerBlock])%list else blocks in
   Ok (blocks ++ [SectionBlock fields])%list)%outcome.

(** [jsonData.length] and the elements the loop visits, read only after
    [Array.isArray] has answered. *)
Definition arrayLength (v : JsValue) : nat :=
  match v with
  | JArray elems => length elems
  | _ => 0%nat
  end.

Definition arrayElements (v : JsValue) : list JsValue :=
  match v with
  | JArray elems => elems
  | _ => []
  end.

(** [function convertJsonToSlackBlocks(jsonData)] *)
Definition convertJsonToSlackBlocks (h : Host) (jsonData : JsValue) : Outcome SlackMessage :=
  if negb (Array_isArray jsonData) || (arrayLength jsonData =? 0)%nat then
    Throw (Error "JSON data should be a non-empty array.")
  else
    (blocks <- forEach (pushRow h) (arrayElements jsonData) 0%nat [] ;;
     Ok {| blocks := blocks |})%outcome.

(* ================================================================= *)
(** ** The outside world and the log of calls to it *)

(** An argument of [console.log] / [console.error]. *)
Inductive LogArg : Type :=
| LogText (s : string)
| LogValue (v : JsValue)
| LogError (e : JsError).

(** The argument of [slackClient.chat.postMessage]; [msg_blocks] is [None]
    where the call passes no [blocks]. *)
Record ChatMessage : Type := {
  msg_channel : string;
  msg_blocks : option (list Block);
  msg_text : string
}.

(** What the handler of [/ask] sends: [res.json(answer)] or
    [res.status(500).send('Server Error')]. *)
Inductive ResponseBody : Type :=
| JsonBody (v : JsValue)
| TextBody (s : string).

Record HttpResponse : Type := {
  status : Z;
  body : ResponseBody
}.

Inductive Event : Type :=
| TranslatorCall (content : string)
| StoreQuery (sqlQuery : JsValue)
| PostMessage (msg : ChatMessage)
| Respond (r : HttpResponse)
| ConsoleLog (args : list LogArg)
| ConsoleError (args : list LogArg).

(** The two services the pipeline awaits.  [translator content] is what
    [axios.post] settles to for a request whose only message has that
    content: [gptResponse.data] when the response is 2xx, a rejection
    otherwise.  [dataStore q] is what [pool.query(q)] settles to:
    [results.rows] or a rejection. *)
Record World : Type := {
  translator : string -> Outcome JsValue;
  dataStore : JsValue -> Outcome (list JsValue)
}.

(** A computation with effects: it extends the log and returns or throws. *)
Definition IO (A : Type) : Type := list Event -> Outcome A * list Event.

Definition ret {A : Type} (a : A) : IO A := fun log => (Ok a, log).

Definition throw {A : Type} (e : JsError) : IO A := fun log => (Throw e, log).

Definition bind {A B : Type} (m : IO A) (k : A -> IO B) : IO B :=
  fun log =>
    match m log with
    | (Ok a, log') => k a log'
    | (Throw e, log') => (Throw e, log')
    end.

Definition emit (e : Event) : IO unit := fun log => (Ok tt, (log ++ [e])%list).

Definition liftOutcome {A : Type} (o : Outcome A) : IO A := fun log => (o, log).

(** [try { body } catch (error) { handler }] around effects: what the body
    logged before it threw stays logged. *)
Definition tryIO {A : Type} (m : IO A) (handler : JsError -> IO A) : IO A :=
  fun log =>
    match m log with
    | (Ok a, log') => (Ok a, log')
    | (Throw e, log') => handler e log'
    end.

Declare Scope io_scope.
Delimit Scope io_scope with io.
Notation "x <- m ;; k" := (bind m (fun x => k))
  (at level 61, m at next level, right associativity) : io_scope.
Notation "m ;;; k" := (bind m (fun _ => k))
  (at level 61, right associativity) : io_scope.

(** [await axios.post(OPENAI_API_URL, { model: 'gpt-4', messages: [{ role:
    'user', content }] }, ...)], as [gptResponse.data]. *)
Definition axios_post (w : World) (content : string) : IO JsValue :=
  (emit (TranslatorCall content) ;;; liftOutcome (translator w content))%io.

(** [await pool.query(sqlQuery)], as [results.rows]. *)
Definition pool_query (w : World) (sqlQuery : JsValue) : IO (list JsValue) :=
  (emit (StoreQuery sqlQuery) ;;; liftOutcome (dataStore w sqlQuery))%io.

(* ================================================================= *)
(** ** server.js: the pipeline and its two entry points *)

(** [aiPrompt + question]: the question is converted to a primitive and
    that to a string, which throws when the question has no string form. *)
Definition composePrompt (h : Host) (question : JsValue) : Outcome string :=
  (asked <- ToString h question ;; Ok (aiPrompt ++ asked))%outcome.

(** [gptResponse.data.choices[0].message.content] *)
Definition firstChoiceContent (data : JsValue) : Outcome JsValue :=
  (choices <- getProp data "choices" ;;
   choice <- getIndex choices 0 ;;
   message <- getProp choice "message" ;;
   getProp message "content")%outcome.

Definition queryDatabase (h : Host) (w : World) (question : JsValue)
  : IO (list JsValue) :=
  tryIO
    (emit (ConsoleLog [LogText "Question asked was"; LogValue question]) ;;;
     content <- liftOutcome (composePrompt h question) ;;
     data <- axios_post w content ;;
     logged <- liftOutcome (firstChoiceContent data) ;;
     emit (ConsoleLog [LogText "response"; LogValue logged]) ;;;
     sqlQuery <- liftOutcome (firstChoiceContent data) ;;
     rows <- pool_query w sqlQuery ;;
     ret rows)%io
    (fun error =>
       (emit (ConsoleError [LogText "Error processing the request:"; LogError error]) ;;;
        throw error)%io).

(** [const { question } = req.body;] *)
Definition destructureQuestion (reqBody : JsValue) : Outcome JsValue :=
  match reqBody with
  | JUndefined =>
      Throw (TypeError
        "Cannot destructure property 'question' of 'req.body' as it is undefined.")
  | JNull =>
      Throw (TypeError
        "Cannot destructure property 'question' of 'req.body' as it is null.")
  | _ => getProp reqBody "question"
  end.

(** [app.post('/ask', async (req, res) => ...)] *)
Definition ask (h : Host) (w : World) (reqBody : JsValue) : IO unit :=
  (question <- liftOutcome (destructureQuestion reqBody) ;;
   tryIO
     (answer <- queryDatabase h w question ;;
      emit (Respond {| status := 200; body := JsonBody (JArray answer) |}))
     (fun error =>
        emit (ConsoleError [LogText "Error processing the request:"; LogError error]) ;;;
        emit (Respond {| status := 500; body := TextBody "Server Error" |})))%io.

(** The [app_mention] event: [event.channel], [event.user], [event.text]. *)
Record MentionEvent : Type := {
  event_channel : string;
  event_user : string;
  event_text : string
}.

(** [slackEvents.on('app_mention', async (event) => ...)].  [data] is an
    array, so [data && data.length > 0] is [data.length > 0]; the calls of
    [postMessage] are not awaited. *)
Definition app_mention (h : Host) (w : World) (event : MentionEvent) : IO unit :=
  tryIO
    (emit (ConsoleLog [LogText ("Bot mentioned in channel " ++ event_channel event
                                ++ " by user " ++ event_user event
                                ++ ", message was " ++ event_text event)]) ;;;
     data <- queryDatabase h w (JString (event_text event)) ;;
     emit (ConsoleLog [LogText "Data returned was"; LogValue (JArray data)]) ;;;
     if (0 <? length data)%nat then
       slackBlockMessage <- liftOutcome (convertJsonToSlackBlocks h (JArray data)) ;;
       emit (PostMessage
               {| msg_channel := event_channel event;
                  msg_blocks := Some (blocks slackBlockMessage);
                  msg_text := "Data found, please use the slack web, desktop or mobile client." |})
     else
       emit (PostMessage
               {| msg_channel := event_channel event;
                  msg_blocks := None;
                  msg_text := "No data found" |}))%io
    (fun error =>
       emit (ConsoleError [LogText "Error responding:"; LogError error])).

(** Projections of a log. *)
Definition storeQueries (log : list Event) : list JsValue :=
  flat_map (fun e => match e with StoreQuery q => [q] | _ => [] end) log.

Definition translatorCalls (log : list Event) : list string :=
  flat_map (fun e => match e with TranslatorCall c => [c] | _ => [] end) log.

Definition responses (log : list Event) : list HttpResponse :=
  flat_map (fun e => match e with Respond r => [r] | _ => [] end) log.

Definition postedMessages (log : list Event) : list ChatMessage :=
  flat_map (fun e => match e with PostMessage m => [m] | _ => [] end) log.

(* ================================================================= *)
(** ** Definitions the statements are written with *)

(** *** Labels, after the specification's words

    "Replace separator characters with spaces, title-case each word": a
    word is a maximal run of word characters, and title-casing it makes its
    first character upper case and keeps the rest. *)

Definition capitalize (word : string) : string :=
  match word with
  | EmptyString => EmptyString
  | String c r => String (charToUpperCase c) r
  end.

(** The maximal runs of word characters and of other characters of [s], in
    order, each with the flag that says which of the two it is. *)
Fixpoint runs (s : string) : list (bool * string) :=
  match s with
  | EmptyString => []
  | String c r =>
      match runs r with
      | (b, w) :: rest =>
          if Bool.eqb b (isWordChar c) then (b, String c w) :: rest
          else (isWordChar c, String c EmptyString) :: (b, w) :: rest
      | [] => [(isWordChar c, String c EmptyString)]
      end
  end.

Definition titleCaseRun (run : bool * string) : string :=
  if fst run then capitalize (snd run) else snd run.

Definition titleCaseWords (s : string) : string :=
  String.concat "" (map titleCaseRun (runs s)).

Definition humanLabel (key : string) : string :=
  titleCaseWords (replaceUnderscores key).

(** *** Fields and sections in closed form *)

(** The time value [new Date(value)] holds. *)
Definition timeValue (h : Host) (value : JsValue) : JsNumber :=
  match Date_new h value with
  | Ok tv => tv
  | Throw _ => NaN
  end.

(** The string form of a value that has one. *)
Definition stringForm (h : Host) (value : JsValue) : string :=
  match ToString h value with
  | Ok s => s
  | Throw _ => ""
  end.

(** Whether a value has a string form: it is not a plain object with an
    own property [toString], nor an array that holds, at any depth, a value
    without string form. *)
Fixpoint convertible (v : JsValue) : bool :=
  match v with
  | JObject props => negb (hasOwnProperty "toString" props)
  | JArray elems => forallb convertible elems
  | _ => true
  end.

(** The date token
    [<!date^${unixTimestamp}^{date_short_pretty} at {time}|${value}>] of a
    value that has a string form. *)
Definition dateToken (h : Host) (unixTimestamp : JsNumber) (value : JsValue) : string :=
  "<!date^" ++ numberToString unixTimestamp ++ "^{date_short_pretty} at {time}|"
  ++ stringForm h value ++ ">".

(** The text after the label: the date token under a date or time key, the
    plain string form under any other. *)
Definition valueText (h : Host) (key : string) (value : JsValue) : string :=
  if isDateKey key then dateToken h (Math_floor_div (timeValue h value) 1000) value
  else stringForm h value.

Definition fieldOf (h : Host) (entry : string * JsValue) : Field :=
  {| type := "mrkdwn";
     text := "*" ++ humanLabel (fst entry) ++ ":*" ++ newline
             ++ valueText h (fst entry) (snd entry) |}.

Definition entriesOf (row : JsValue) : list (string * JsValue) :=
  match Object_entries row with
  | Ok entries => entries
  | Throw _ => []
  end.

Definition sectionOf (h : Host) (row : JsValue) : Block :=
  SectionBlock (map (fieldOf h) (entriesOf row)).

(** A divider before every section. *)
Definition divided (sections : list Block) : list Block :=
  flat_map (fun s => [DividerBlock; s]) sections.

(** A divider between consecutive sections and nowhere else. *)
Definition interleave (sections : list Block) : list Block :=
  match sections with
  | [] => []
  | s :: rest => s :: divided rest
  end.

Definition countType (t : string) (bs : list Block) : nat :=
  count_occ string_dec (map blockType bs) t.

(** *** Rows the renderer gets through

    A field is rendered when its value has a string form and is not
    [null] or [undefined] under a key that is not a date or time key; a
    row is rendered when it can be enumerated and each of its fields is
    rendered.  The rows of the specification's data model, objects whose
    fields hold integers, strings, numerics or timestamps, are of this
    kind ([isResultRow]). *)
Definition renderableEntry (entry : string * JsValue) : bool :=
  convertible (snd entry) && (isDateKey (fst entry) || negb (isNullish (snd entry))).

Definition renderableRow (row : JsValue) : bool :=
  match Object_entries row with
  | Ok entries => forallb renderableEntry entries
  | Throw _ => false
  end.

Definition isScalar (v : JsValue) : bool :=
  match v with
  | JNumber _ | JString _ | JDate _ | JBool _ => true
  | _ => false
  end.

Definition isResultRow (row : JsValue) : bool :=
  match row with
  | JObject props => forallb (fun entry => isScalar (snd entry)) props
  | _ => false
  end.

(** *** Kinds of exception *)

Definition isTypeError (e : JsError) : Prop := exists msg, e = TypeError msg.

(** *** The pipeline as a function of the world *)

(** What the translator and the data store make of a question: the rows,
    or the first failure on the way, that of composing the prompt
    included. *)
Definition pipelineResult (h : Host) (w : World) (question : JsValue)
  : Outcome (list JsValue) :=
  (content <- composePrompt h question ;;
   data <- translator w content ;;
   sqlQuery <- firstChoiceContent data ;;
   dataStore w sqlQuery)%outcome.

(** *** Worlds and inputs of the examples *)

Definition envelope (content : JsValue) : JsValue :=
  JObject [("choices", JArray [JObject [("message", JObject [("content", content)])]])].

Definition exampleQuery : string :=
  "SELECT DISTINCT measurement, answer_value, evaluation_date_time FROM vm_simple_measures ORDER BY evaluation_date_time".

Definition exampleRows : list JsValue :=
  [ JObject [("measurement", JString "Hemoglobin");
             ("answer_value", JNumber 13.5%float);
             ("evaluation_date_time", JString "2024-01-15T10:30:00Z")];
    JObject [("measurement", JString "Hemoglobin");
             ("answer_value", JNumber 14%float);
             ("evaluation_date_time", JString "2024-02-15T10:30:00Z")] ].

(** The translator answers every prompt with [exampleQuery]; the store
    returns [rows] for it and rejects any other text. *)
Definition worldReturning (rows : list JsValue) : World := {|
  translator := fun _ => Ok (envelope (JString exampleQuery));
  dataStore := fun q =>
    match q with
    | JString s => if String.eqb s exampleQuery then Ok rows
                   else Throw (Error "syntax error")
    | _ => Throw (TypeError "Client was passed a null or undefined query")
    end
|}.

(** The translator answers 200 with a first message whose content is
    [null]; the store rejects what is not text with a [TypeError], as
    node-postgres does. *)
Definition worldWithNullContent : World := {|
  translator := fun _ => Ok (envelope JNull);
  dataStore := fun q =>
    match q with
    | JString s => Ok []
    | _ => Throw (TypeError "Client was passed a null or undefined query")
    end
|}.

Definition exampleMention : MentionEvent := {|
  event_channel := "C024BE91L";
  event_user := "U2147483697";
  event_text := "average hemoglobin for clinic 3 last month"
|}.

(* ================================================================= *)
(** ** server.js: the bot identity *)

(** [async function obtainBotUserId()]; [authTest] is what
    [slackClient.auth.test()] settles to.  A function that ends without
    [return] yields [undefined]. *)
Definition obtainBotUserId (authTest : Outcome JsValue) : IO JsValue :=
  tryIO
    (response <- liftOutcome authTest ;;
     liftOutcome (getProp response "user_id"))%io
    (fun error =>
       (emit (ConsoleError [LogText "Error fetching bot user ID:"; LogError error]) ;;;
        ret JUndefined)%io).

(** [obtainBotUserId().then(id => { botUserId = id; console.log(`Bot User
    ID is ${botUserId}`); })], as the value [botUserId] holds afterwards. *)
Definition assignBotUserId (h : Host) (authTest : Outcome JsValue) : IO JsValue :=
  (id <- obtainBotUserId authTest ;;
   let botUserId := id in
   shown <- liftOutcome (ToString h botUserId) ;;
   emit (ConsoleLog [LogText ("Bot User ID is " ++ shown)]) ;;;
   ret botUserId)%io.

(** *** What was written to [console.error] *)
Definition consoleErrors (log : list Event) : list (list LogArg) :=
  flat_map (fun e => match e with ConsoleError args => [args] | _ => [] end) log.

(** The messages of the mention handler. *)
Definition dataFoundMessage (event : MentionEvent) (bs : list Block) : ChatMessage :=
  {| msg_channel := event_channel event;
     msg_blocks := Some bs;
     msg_text := "Data found, please use the slack web, desktop or mobile client." |}.

Definition noDataMessage (event : MentionEvent) : ChatMessage :=
  {| msg_channel := event_channel event;
     msg_blocks := None;
     msg_text := "No data found" |}.

Definition requestFailed (e : JsError) : list LogArg :=
  [LogText "Error processing the request:"; LogError e].

Definition respondingFailed (e : JsError) : list LogArg :=
  [LogText "Error responding:"; LogError e].

(* ================================================================= *)
(** ** Date and time keys *)

Lemma prefix_iff (needle s : string) :
  prefix needle s = true <-> exists post, s = needle ++ post.
Proof.
  revert s. induction needle as [|a needle IH]; intros s.
  - destruct s; cbn; split; intros _; eauto.
  - destruct s as [|b s]; cbn [prefix append].
    + split; [discriminate|]. intros [post Hpost]. discriminate Hpost.
    + destruct (ascii_dec a b) as [->|Hab].
      * rewrite IH. split; intros [post Hpost]; exists post; congruence.
      * split; [discriminate|]. intros [post Hpost]. congruence.
Qed.

(** [includes] is containment as a contiguous substring. *)
Lemma includes_iff (s needle : string) :
  includes s needle = true <-> exists pre post, s = pre ++ needle ++ post.
Proof.
  induction s as [|c r IH]; cbn [includes]; rewrite orb_true_iff, prefix_iff.
  - split.
    + intros [[post Hpost] | Hf]; [|discriminate]. now exists "", post.
    + intros [[|? ?] [post Hpost]]; [|discriminate]. left. now exists post.
  - rewrite IH. split.
    + intros [[post Hpost] | [pre [post Hr]]].
      * now exists "", post.
      * exists (String c pre), post. cbn. now rewrite Hr.
    + intros [[|c' pre] [post Hs]].
      * left. now exists post.
      * right. exists pre, post. cbn in Hs. congruence.
Qed.

(** The test of the renderer: the key, in lower case, contains "date" or
    "time". *)
Lemma isDateKey_iff (key : string) :
  isDateKey key = true <->
  exists pre post,
    toLowerCase key = pre ++ "date" ++ post \/ toLowerCase key = pre ++ "time" ++ post.
Proof.
  unfold isDateKey. rewrite orb_true_iff, !includes_iff. split.
  - intros [[pre [post H]] | [pre [post H]]]; exists pre, post; auto.
  - intros [pre [post [H | H]]]; [left | right]; now exists pre, post.
Qed.

Example isDateKey_mixed_case : isDateKey "Evaluation_DATE_Time" = true.
Proof. reflexivity. Qed.

Example isDateKey_measurement : isDateKey "measurement" = false.
Proof. reflexivity. Qed.

(** A string with [Z] or an offset has the same time value on every
    host. *)
Example Date_new_iso_utc (h : Host) :
  Date_new h (JString "2024-01-15T10:30:00Z") = Ok (Num 1705314600000).
Proof. reflexivity. Qed.

Example Date_new_iso_offset (h : Host) :
  Date_new h (JString "2024-01-15T12:30:00.250+02:00") = Ok (Num 1705314600250).
Proof. reflexivity. Qed.

Example Date_new_date_only (h : Host) :
  Date_new h (JString "1969-12-31") = Ok (Num (-86400000)).
Proof. reflexivity. Qed.

Example Date_new_null (h : Host) : Date_new h JNull = Ok (Num 0).
Proof. reflexivity. Qed.

Example utcDateToString_example :
  ToString utcHost (JDate (Num 1705314600000))
  = Ok "Mon Jan 15 2024 10:30:00 GMT+0000 (Coordinated Universal Time)".
Proof. reflexivity. Qed.

(** Numbers are printed as JavaScript prints them. *)
Example Number_toString_examples :
  map Number_toString
      [42; 13.5; -0.25; 9223372036854775808; 1e21; 0x1.ac53a7e04bcdap+66;
       0x1p-1074; 0.00000095367431640625; 9007199254740992]%float
  = ["42"; "13.5"; "-0.25"; "9223372036854776000"; "1e+21"; "123456789012345680000";
     "5e-324"; "9.5367431640625e-7"; "9007199254740992"].
Proof. vm_compute. reflexivity. Qed.

Example Date_new_number (h : Host) :
  Date_new h (JNumber 1705314600999.5%float) = Ok (Num 1705314600999).
Proof. vm_compute. reflexivity. Qed.

(* ================================================================= *)
(** ** Labels *)

Lemma concat_empty_cons (c : ascii) (w : string) (l : list string) :
  String.concat "" (String c w :: l) = String c (String.concat "" (w :: l)).
Proof.
  destruct l; reflexivity.
Qed.

(** The scan of [upperCaseWordStarts] and the run-by-run title-casing
    agree; when the text continues a word, its first run is left as it
    is. *)
Lemma upperCaseWordStarts_runs (s : string) :
  upperCaseWordStarts false s = String.concat "" (map titleCaseRun (runs s)) /\
  upperCaseWordStarts true s =
    match runs s with
    | (true, w) :: rest => String.concat "" (w :: map titleCaseRun rest)
    | rs => String.concat "" (map titleCaseRun rs)
    end.
Proof.
  induction s as [|c r [IHf IHt]]; [split; reflexivity|].
  cbn [upperCaseWordStarts runs].
  destruct (isWordChar c) eqn:Hc; cbn [andb negb];
    destruct (runs r) as [|[[|] w] rest] eqn:Hr; cbn [Bool.eqb];
    rewrite ?IHf, ?IHt; cbn [map titleCaseRun fst snd capitalize];
    rewrite ?concat_empty_cons; split; reflexivity.
Qed.

Lemma formattedKey_humanLabel (key : string) : formattedKey key = humanLabel key.
Proof.
  unfold formattedKey, humanLabel, titleCaseWords.
  apply (proj1 (upperCaseWordStarts_runs _)).
Qed.

(* ================================================================= *)
(** ** Values with and without a string form *)

(** Induction on values, through the elements of arrays. *)
Lemma JsValue_elements_ind (P : JsValue -> Prop) :
  P JUndefined -> P JNull ->
  (forall b, P (JBool b)) -> (forall x, P (JNumber x)) ->
  (forall s, P (JString s)) -> (forall tv, P (JDate tv)) ->
  (forall elems, Forall P elems -> P (JArray elems)) ->
  (forall props, P (JObject props)) ->
  forall v, P v.
Proof.
  intros Hu Hn Hb Hx Hs Hd Ha Ho. fix IH 1.
  intros [ | | b | x | s | tv | elems | props];
    [exact Hu | exact Hn | apply Hb | apply Hx | apply Hs | apply Hd | | apply Ho].
  apply Ha. induction elems as [|x rest IHrest]; constructor; [apply IH | exact IHrest].
Qed.

Lemma isNullish_convertible (v : JsValue) : isNullish v = true -> convertible v = true.
Proof.
  destruct v; intros Hn; try discriminate Hn; reflexivity.
Qed.

Lemma joinElements_defined (element : JsValue -> Outcome string) (elems : list JsValue) :
  Forall (fun x => convertible x = true -> exists s, element x = Ok s) elems ->
  forallb convertible elems = true ->
  forall first, exists s, joinElements element first elems = Ok s.
Proof.
  induction 1 as [|x rest Hx _ IH]; intros Hall first; cbn [joinElements].
  - eexists; reflexivity.
  - cbn [forallb] in Hall. apply andb_prop in Hall as [Hcx Hrest].
    destruct (Hx Hcx) as [s ->]. destruct (IH Hrest false) as [t ->].
    eexists; reflexivity.
Qed.

Lemma joinElements_throws (element : JsValue -> Outcome string) (elems : list JsValue) :
  Forall (fun x => (convertible x = true -> exists s, element x = Ok s) /\
                   (convertible x = false -> exists msg, element x = Throw (TypeError msg)))
         elems ->
  forallb convertible elems = false ->
  forall first, exists msg, joinElements element first elems = Throw (TypeError msg).
Proof.
  induction 1 as [|x rest [Hok Hbad] _ IH]; intros Hall first; cbn [joinElements].
  - discriminate Hall.
  - cbn [forallb] in Hall. destruct (convertible x) eqn:Hcx.
    + destruct (Hok eq_refl) as [s ->]. cbn [andb] in Hall.
      destruct (IH Hall false) as [msg ->]. eexists; reflexivity.
    + destruct (Hbad eq_refl) as [msg ->]. eexists; reflexivity.
Qed.

(** A value has a string form exactly when it is [convertible]; the
    conversion of one that is not throws a [TypeError]. *)
Lemma ToString_convertible (h : Host) (v : JsValue) :
  (convertible v = true -> exists s, ToString h v = Ok s) /\
  (convertible v = false -> exists msg, ToString h v = Throw (TypeError msg)).
Proof.
  induction v as [ | | b | x | s | tv | elems IH | props] using JsValue_elements_ind;
    try (split; [intros _; eexists; reflexivity | discriminate]).
  - destruct b; split; try discriminate; intros _; eexists; reflexivity.
  - destruct tv; split; try discriminate; intros _; eexists; reflexivity.
  - assert (Hel : Forall
              (fun x => (convertible x = true ->
                         exists s, (if isNullish x then Ok "" else ToString h x) = Ok s) /\
                        (convertible x = false ->
                         exists msg, (if isNullish x then Ok "" else ToString h x)
                                     = Throw (TypeError msg)))
              elems).
    { induction IH as [|x rest [Hok Hbad] _ IHrest]; constructor; [|exact IHrest].
      destruct (isNullish x) eqn:Hn.
      - split; [intros _; eexists; reflexivity|].
        intros Hc. rewrite (isNullish_convertible x Hn) in Hc. discriminate Hc.
      - split; assumption. }
    cbn [ToString convertible]. split; intros Hc.
    + apply joinElements_defined; [|assumption].
      eapply Forall_impl; [|exact Hel]. intros x [Hok _]. exact Hok.
    + now apply joinElements_throws.
  - cbn [ToString convertible]. destruct (hasOwnProperty "toString" props); split;
      try discriminate; intros _; eexists; reflexivity.
Qed.

Lemma ToString_stringForm (h : Host) (v : JsValue) :
  convertible v = true -> ToString h v = Ok (stringForm h v).
Proof.
  intros Hc. destruct (proj1 (ToString_convertible h v) Hc) as [s Hs].
  unfold stringForm. now rewrite Hs.
Qed.

Lemma ToString_defined_convertible (h : Host) (v : JsValue) (s : string) :
  ToString h v = Ok s -> convertible v = true.
Proof.
  intros Hs. destruct (convertible v) eqn:Hc; [reflexivity|].
  destruct (proj2 (ToString_convertible h v) Hc) as [msg Hm]. congruence.
Qed.

Lemma ToString_throws_TypeError (h : Host) (v : JsValue) (e : JsError) :
  ToString h v = Throw e -> isTypeError e.
Proof.
  intros He. destruct (convertible v) eqn:Hc.
  - destruct (proj1 (ToString_convertible h v) Hc) as [s Hs]. congruence.
  - destruct (proj2 (ToString_convertible h v) Hc) as [msg Hm].
    exists msg. congruence.
Qed.

Lemma toStringMethod_defined (h : Host) (value : JsValue) :
  isNullish value = false -> convertible value = true ->
  toStringMethod h value = Ok (stringForm h value).
Proof.
  intros Hn Hc. destruct value; try discriminate Hn;
    try exact (ToString_stringForm h _ Hc).
  cbn [toStringMethod]. cbn [convertible] in Hc.
  unfold stringForm. cbn [ToString].
  destruct (hasOwnProperty "toString" props); [discriminate Hc|reflexivity].
Qed.

Lemma toStringMethod_nullish (h : Host) (value : JsValue) :
  isNullish value = true -> exists msg, toStringMethod h value = Throw (TypeError msg).
Proof.
  destruct value; intros Hn; try discriminate Hn; eexists; reflexivity.
Qed.

Lemma toStringMethod_unconvertible (h : Host) (value : JsValue) :
  convertible value = false -> exists msg, toStringMethod h value = Throw (TypeError msg).
Proof.
  intros Hc. destruct value; try discriminate Hc.
  - exact (proj2 (ToString_convertible h _) Hc).
  - cbn [toStringMethod]. cbn [convertible] in Hc.
    destruct (hasOwnProperty "toString" props); [eexists; reflexivity|discriminate Hc].
Qed.

Lemma toStringMethod_throws_TypeError (h : Host) (value : JsValue) (e : JsError) :
  toStringMethod h value = Throw e -> isTypeError e.
Proof.
  destruct value; cbn [toStringMethod];
    try exact (ToString_throws_TypeError h _ e);
    try (intros [= <-]; eexists; reflexivity).
  destruct (hasOwnProperty "toString" props); [|discriminate].
  intros [= <-]; eexists; reflexivity.
Qed.

(* ================================================================= *)
(** ** The renderer, field by field and row by row *)

Lemma Date_new_timeValue (h : Host) (value : JsValue) :
  convertible value = true -> Date_new h value = Ok (timeValue h value).
Proof.
  intros Hc. unfold timeValue.
  destruct value; try reflexivity; cbn [Date_new];
    rewrite (ToString_stringForm h _ Hc); reflexivity.
Qed.

Lemma Date_new_unconvertible (h : Host) (value : JsValue) :
  convertible value = false -> exists msg, Date_new h value = Throw (TypeError msg).
Proof.
  intros Hc. destruct value; try discriminate Hc; cbn [Date_new];
    destruct (proj2 (ToString_convertible h _) Hc) as [msg ->];
    eexists; reflexivity.
Qed.

Lemma Date_new_defined_convertible (h : Host) (value : JsValue) (tv : JsNumber) :
  Date_new h value = Ok tv -> convertible value = true.
Proof.
  intros Hd. destruct (convertible value) eqn:Hc; [reflexivity|].
  destruct (Date_new_unconvertible h value Hc) as [msg Hm]. congruence.
Qed.

Lemma TimeClip_range (n : JsNumber) (ms : Z) :
  TimeClip n = Num ms -> Z.abs ms <= 8640000000000000.
Proof.
  destruct n as [|z]; cbn [TimeClip]; [discriminate|].
  destruct (Z.abs z <=? 8640000000000000) eqn:Hz; [|discriminate].
  intros [= <-]. now apply Z.leb_le.
Qed.

(** Every time value the constructor yields is within the range of time
    values, so the epoch seconds printed from it are an integer of at most
    thirteen digits. *)
Lemma Date_new_range (h : Host) (value : JsValue) (ms : Z) :
  Date_new h value = Ok (Num ms) -> Z.abs ms <= 8640000000000000.
Proof.
  assert (Hparse : forall s, Date_parse h s = Num ms -> Z.abs ms <= 8640000000000000).
  { intros s. unfold Date_parse. destruct (parseIsoDate h s); apply TimeClip_range. }
  destruct value; cbn [Date_new].
  - discriminate.
  - intros [= <-]. cbn. lia.
  - destruct b; intros [= <-]; cbn; lia.
  - intros [= Hx]. exact (TimeClip_range _ _ Hx).
  - intros [= Hs]. exact (Hparse _ Hs).
  - intros [= Ht]. exact (TimeClip_range _ _ Ht).
  - destruct (ToString h (JArray elems)) as [primitive|e]; cbn [obind]; [|discriminate].
    intros [= Hs]. exact (Hparse _ Hs).
  - destruct (ToString h (JObject props)) as [primitive|e]; cbn [obind]; [|discriminate].
    intros [= Hs]. exact (Hparse _ Hs).
Qed.

(** Under a date or time key a value that has a string form is rendered
    as the token, whatever it is: the [try] block runs to its end. *)
Lemma formattedValue_date (h : Host) (key : string) (value : JsValue) :
  isDateKey key = true ->
  convertible value = true ->
  formattedValue h key value
  = Ok (dateToken h (Math_floor_div (timeValue h value) 1000) value).
Proof.
  intros Hk Hc. unfold formattedValue, dateTemplate, dateToken.
  rewrite Hk, (Date_new_timeValue h value Hc). cbn [obind tryCatch].
  rewrite (ToString_stringForm h value Hc). reflexivity.
Qed.

(** The [catch] branch is entered only when the value has no string form,
    and then [value.toString()] throws as well. *)
Lemma formattedValue_date_unconvertible (h : Host) (key : string) (value : JsValue) :
  isDateKey key = true ->
  convertible value = false ->
  exists msg, formattedValue h key value = Throw (TypeError msg).
Proof.
  intros Hk Hc. unfold formattedValue. rewrite Hk.
  destruct (Date_new_unconvertible h value Hc) as [msg1 ->]. cbn [obind tryCatch].
  exact (toStringMethod_unconvertible h value Hc).
Qed.

(** In particular a value that does not parse is not rendered as its
    plain string form but as a token whose epoch is [NaN]. *)
Lemma formattedValue_date_unparseable (h : Host) (key : string) (value : JsValue) :
  isDateKey key = true ->
  convertible value = true ->
  timeValue h value = NaN ->
  formattedValue h key value
  = Ok ("<!date^NaN^{date_short_pretty} at {time}|" ++ stringForm h value ++ ">").
Proof.
  intros Hk Hc Ht. rewrite (formattedValue_date _ _ _ Hk Hc), Ht. reflexivity.
Qed.

Lemma formattedValue_plain (h : Host) (key : string) (value : JsValue) :
  isDateKey key = false -> formattedValue h key value = toStringMethod h value.
Proof.
  intros Hk. unfold formattedValue. rewrite Hk. reflexivity.
Qed.

Lemma formattedValue_throws_TypeError (h : Host) (key : string) (value : JsValue)
      (e : JsError) :
  formattedValue h key value = Throw e -> isTypeError e.
Proof.
  unfold formattedValue. destruct (isDateKey key).
  - destruct (Date_new h value) as [date|e1]; cbn [obind tryCatch].
    + unfold dateTemplate. destruct (ToString h value) as [raw|e2] eqn:Hr;
        cbn [obind tryCatch]; [discriminate|].
      apply toStringMethod_throws_TypeError.
    + apply toStringMethod_throws_TypeError.
  - apply toStringMethod_throws_TypeError.
Qed.

Lemma formattedValue_renderable (h : Host) (key : string) (value : JsValue) :
  renderableEntry (key, value) = true ->
  formattedValue h key value = Ok (valueText h key value).
Proof.
  unfold renderableEntry, valueText. cbn [fst snd]. intros Hr.
  apply andb_prop in Hr as [Hc Hr].
  destruct (isDateKey key) eqn:Hk.
  - now rewrite formattedValue_date.
  - rewrite formattedValue_plain by assumption.
    apply toStringMethod_defined; [|assumption]. cbn in Hr. now destruct (isNullish value).
Qed.

Lemma formattedValue_unrenderable (h : Host) (key : string) (value : JsValue) :
  renderableEntry (key, value) = false ->
  exists msg, formattedValue h key value = Throw (TypeError msg).
Proof.
  unfold renderableEntry. cbn [fst snd]. intros Hr.
  destruct (convertible value) eqn:Hc; cbn [andb] in Hr.
  - apply orb_false_iff in Hr as [Hk Hn]. apply negb_false_iff in Hn.
    rewrite (formattedValue_plain _ _ _ Hk). now apply toStringMethod_nullish.
  - destruct (isDateKey key) eqn:Hk.
    + now apply formattedValue_date_unconvertible.
    + rewrite (formattedValue_plain _ _ _ Hk). now apply toStringMethod_unconvertible.
Qed.
Lemma pushField_renderable (h : Host) (fields : list Field)
      (entry : string * JsValue) (index : nat) :
  renderableEntry entry = true ->
  pushField h fields entry index = Ok (fields ++ [fieldOf h entry])%list.
Proof.
  destruct entry as [key value]. intros Hr. unfold pushField, fieldOf.
  rewrite (formattedValue_renderable _ _ _ Hr). cbn [obind fst snd].
  now rewrite formattedKey_humanLabel.
Qed.

Lemma forEach_pushField (h : Host) (entries : list (string * JsValue)) :
  forallb renderableEntry entries = true ->
  forall (index : nat) (fields : list Field),
    forEach (pushField h) entries index fields
    = Ok (fields ++ map (fieldOf h) entries)%list.
Proof.
  induction entries as [|entry rest IH]; intros Hall index fields; cbn [forEach map].
  - now rewrite app_nil_r.
  - cbn [forallb] in Hall. apply andb_prop in Hall as [Hentry Hrest].
    rewrite (pushField_renderable _ _ _ _ Hentry). cbn [obind].
    rewrite (IH Hrest). now rewrite <- app_assoc.
Qed.

Lemma pushRow_renderable (h : Host) (bs : list Block) (row : JsValue) (index : nat) :
  renderableRow row = true ->
  pushRow h bs row index
  = Ok ((if (0 <? index)%nat then bs ++ [DividerBlock] else bs) ++ [sectionOf h row])%list.
Proof.
  unfold renderableRow, pushRow, sectionOf, entriesOf.
  destruct (Object_entries row) as [entries|e]; [|discriminate].
  intros Hall. cbn [obind]. rewrite (forEach_pushField h entries Hall). reflexivity.
Qed.

Lemma forEach_pushRow_divided (h : Host) (rows : list JsValue) :
  forallb renderableRow rows = true ->
  forall (index : nat) (bs : list Block),
    (0 < index)%nat ->
    forEach (pushRow h) rows index bs
    = Ok (bs ++ divided (map (sectionOf h) rows))%list.
Proof.
  induction rows as [|row rest IH]; intros Hall index bs Hpos; cbn [forEach map].
  - unfold divided. cbn. now rewrite app_nil_r.
  - cbn [forallb] in Hall. apply andb_prop in Hall as [Hrow Hrest].
    rewrite (pushRow_renderable _ _ _ _ Hrow).
    apply Nat.ltb_lt in Hpos as Hlt. rewrite Hlt. cbn [obind].
    rewrite (IH Hrest) by lia.
    unfold divided. cbn [flat_map]. now rewrite <- !app_assoc.
Qed.

(** The renderer in closed form: on rows it gets through, the sections of
    the rows in order with a divider between consecutive ones. *)
Lemma convertJsonToSlackBlocks_renderable (h : Host) (rows : list JsValue) :
  rows <> [] ->
  forallb renderableRow rows = true ->
  convertJsonToSlackBlocks h (JArray rows)
  = Ok {| blocks := interleave (map (sectionOf h) rows) |}.
Proof.
  destruct rows as [|row rest]; [congruence|]. intros _ Hall.
  unfold convertJsonToSlackBlocks.
  cbn [Array_isArray arrayLength arrayElements negb orb length Nat.eqb forEach].
  cbn [forallb] in Hall. apply andb_prop in Hall as [Hrow Hrest].
  rewrite (pushRow_renderable _ _ _ _ Hrow). cbn [Nat.ltb Nat.leb obind app].
  rewrite (forEach_pushRow_divided h rest Hrest) by lia.
  reflexivity.
Qed.

Lemma isResultRow_renderable (row : JsValue) :
  isResultRow row = true -> renderableRow row = true.
Proof.
  destruct row; try discriminate. cbn [isResultRow renderableRow Object_entries].
  induction props as [|[key value] rest IH]; [reflexivity|].
  cbn [forallb fst snd]. intros Hall. apply andb_prop in Hall as [Hv Hrest].
  rewrite (IH Hrest), andb_true_r. unfold renderableEntry. cbn [fst snd].
  destruct value; try discriminate Hv; cbn [convertible isNullish negb andb];
    now rewrite orb_true_r.
Qed.

(* ----------------------------------------------------------------- *)
(** *** Counting and placing the blocks *)

Lemma divided_length (secs : list Block) :
  length (divided secs) = (2 * length secs)%nat.
Proof.
  induction secs as [|s rest IH]; [reflexivity|].
  unfold divided in *. cbn [flat_map app length]. rewrite IH. lia.
Qed.

Lemma divided_count_divider (h : Host) (rows : list JsValue) :
  countType "divider" (divided (map (sectionOf h) rows)) = length rows.
Proof.
  induction rows as [|row rest IH]; [reflexivity|].
  unfold countType, divided in *. cbn [map flat_map app blockType sectionOf].
  cbn [count_occ]. destruct (string_dec "divider" "divider"); [|congruence].
  destruct (string_dec "section" "divider"); [discriminate|].
  cbn [length]. now rewrite IH.
Qed.

Lemma divided_count_section (h : Host) (rows : list JsValue) :
  countType "section" (divided (map (sectionOf h) rows)) = length rows.
Proof.
  induction rows as [|row rest IH]; [reflexivity|].
  unfold countType, divided in *. cbn [map flat_map app blockType sectionOf].
  cbn [count_occ]. destruct (string_dec "divider" "section"); [discriminate|].
  destruct (string_dec "section" "section"); [|congruence].
  cbn [length]. now rewrite IH.
Qed.

Lemma divided_nth (h : Host) (rows : list JsValue) (i : nat) :
  (i < 2 * length rows)%nat ->
  blockType (nth i (divided (map (sectionOf h) rows)) DividerBlock)
  = if Nat.even i then "divider" else "section".
Proof.
  revert i. induction rows as [|row rest IH]; intros i Hi; [cbn in Hi; lia|].
  unfold divided in *. cbn [map flat_map app].
  destruct i as [|[|i]]; [reflexivity|reflexivity|].
  cbn [nth Nat.even]. apply IH. cbn [length] in Hi. lia.
Qed.

(* ----------------------------------------------------------------- *)
(** *** Exceptions inside the loops *)

Lemma forEach_throw_inv {A St : Type} (f : St -> A -> nat -> Outcome St)
      (P : JsError -> Prop) :
  (forall s x i e, f s x i = Throw e -> P e) ->
  forall l i s e, forEach f l i s = Throw e -> P e.
Proof.
  intros Hf. induction l as [|x rest IH]; intros i s e; cbn [forEach].
  - discriminate.
  - destruct (f s x i) as [s'|e'] eqn:Hx; cbn [obind].
    + apply IH.
    + intros [= <-]. exact (Hf _ _ _ _ Hx).
Qed.

(** An element on which the callback throws whatever the state makes the
    loop throw, at that element or before it. *)
Lemma forEach_throws {A St : Type} (f : St -> A -> nat -> Outcome St)
      (P : JsError -> Prop) :
  (forall s x i e, f s x i = Throw e -> P e) ->
  forall l x,
    In x l ->
    (forall s i, exists e, f s x i = Throw e) ->
    forall i s, exists e, forEach f l i s = Throw e /\ P e.
Proof.
  intros Hf. induction l as [|y rest IH]; intros x Hin Hx i s; [destruct Hin|].
  cbn [forEach]. destruct (f s y i) as [s'|e] eqn:Hy; cbn [obind].
  - destruct Hin as [-> | Hin].
    + destruct (Hx s i) as [e He]. congruence.
    + exact (IH x Hin Hx (S i) s').
  - exists e. split; [reflexivity|]. exact (Hf _ _ _ _ Hy).
Qed.

Lemma pushField_throws_TypeError (h : Host) (fields : list Field)
      (entry : string * JsValue) (index : nat) (e : JsError) :
  pushField h fields entry index = Throw e -> isTypeError e.
Proof.
  destruct entry as [key value]. unfold pushField.
  destruct (formattedValue h key value) as [fv|e'] eqn:Hf; cbn [obind]; [discriminate|].
  intros [= <-]. exact (formattedValue_throws_TypeError _ _ _ _ Hf).
Qed.

Lemma pushField_unrenderable (h : Host) (fields : list Field)
      (entry : string * JsValue) (index : nat) :
  renderableEntry entry = false ->
  exists e, pushField h fields entry index = Throw e.
Proof.
  destruct entry as [key value]. intros Hr. unfold pushField.
  destruct (formattedValue_unrenderable h key value Hr) as [msg ->].
  eexists; reflexivity.
Qed.

Lemma pushField_nullish (h : Host) (fields : list Field) (key : string)
      (value : JsValue) (index : nat) :
  isDateKey key = false -> isNullish value = true ->
  exists e, pushField h fields (key, value) index = Throw e.
Proof.
  intros Hk Hn. unfold pushField. rewrite (formattedValue_plain _ _ _ Hk).
  destruct (toStringMethod_nullish h value Hn) as [msg ->]. eexists; reflexivity.
Qed.

Lemma pushRow_throws_TypeError (h : Host) (bs : list Block) (row : JsValue)
      (index : nat) (e : JsError) :
  pushRow h bs row index = Throw e -> isTypeError e.
Proof.
  unfold pushRow. destruct (Object_entries row) as [entries|e'] eqn:He; cbn [obind].
  - destruct (forEach (pushField h) entries 0%nat []) as [fields|e'] eqn:Hf;
      cbn [obind]; [discriminate|].
    intros [= <-].
    exact (forEach_throw_inv _ _ (pushField_throws_TypeError h) _ _ _ _ Hf).
  - intros [= <-]. destruct row; try discriminate He;
      cbn in He; injection He as <-; eexists; reflexivity.
Qed.

Lemma pushRow_nullish (h : Host) (row : JsValue) (entries : list (string * JsValue))
      (key : string) (value : JsValue) :
  Object_entries row = Ok entries ->
  In (key, value) entries ->
  isDateKey key = false -> isNullish value = true ->
  forall bs index, exists e, pushRow h bs row index = Throw e.
Proof.
  intros He Hin Hk Hn bs index. unfold pushRow. rewrite He. cbn [obind].
  destruct (forEach_throws (pushField h) isTypeError (pushField_throws_TypeError h)
              entries (key, value) Hin
              (fun s i => pushField_nullish h s key value i Hk Hn) 0%nat [])
    as [e [-> _]].
  eexists; reflexivity.
Qed.

Lemma forallb_false {A : Type} (f : A -> bool) (l : list A) :
  forallb f l = false -> exists x, In x l /\ f x = false.
Proof.
  induction l as [|y rest IH]; cbn [forallb]; [discriminate|].
  destruct (f y) eqn:Hy; cbn [andb].
  - intros Hrest. destruct (IH Hrest) as [x [Hin Hx]]. exists x. split; [now right|assumption].
  - intros _. exists y. split; [now left|assumption].
Qed.

Lemma pushRow_unrenderable (h : Host) (row : JsValue) :
  renderableRow row = false ->
  forall bs index, exists e, pushRow h bs row index = Throw e.
Proof.
  unfold renderableRow. destruct (Object_entries row) as [entries|e] eqn:He.
  - intros Hall bs index. destruct (forallb_false _ _ Hall) as [entry [Hin Hbad]].
    unfold pushRow. rewrite He. cbn [obind].
    destruct (forEach_throws (pushField h) isTypeError (pushField_throws_TypeError h)
                entries entry Hin
                (fun s i => pushField_unrenderable h s entry i Hbad) 0%nat [])
      as [e [-> _]].
    eexists; reflexivity.
  - intros _ bs index. unfold pushRow. rewrite He. eexists; reflexivity.
Qed.

(** X1.  The renderer returns a message exactly on the non-empty arrays of
    rows it gets through; on every other array it throws. *)
Lemma convertJsonToSlackBlocks_returns_iff (h : Host) (rows : list JsValue) :
  (exists message, convertJsonToSlackBlocks h (JArray rows) = Ok message) <->
  rows <> [] /\ forallb renderableRow rows = true.
Proof.
  split.
  - intros [message Hm]. split.
    + intros ->. discriminate Hm.
    + destruct (forallb renderableRow rows) eqn:Hall; [reflexivity|].
      destruct (forallb_false _ _ Hall) as [row [Hin Hbad]].
      destruct (forEach_throws (pushRow h) isTypeError (pushRow_throws_TypeError h)
                  rows row Hin (pushRow_unrenderable h row Hbad) 0%nat [])
        as [e [Hthrow _]].
      unfold convertJsonToSlackBlocks in Hm.
      destruct rows as [|r rest]; [destruct Hin|].
      cbn [Array_isArray arrayLength arrayElements negb orb length Nat.eqb] in Hm.
      rewrite Hthrow in Hm. discriminate Hm.
  - intros [Hne Hall]. eexists. now apply convertJsonToSlackBlocks_renderable.
Qed.

(* ================================================================= *)
(** ** The pipeline *)

(** One run of [queryDatabase], event by event. *)
Lemma queryDatabase_run (h : Host) (w : World) (question : JsValue) (log : list Event) :
  queryDatabase h w question log =
  let asked := ConsoleLog [LogText "Question asked was"; LogValue question] in
  let failed := fun e => ConsoleError [LogText "Error processing the request:"; LogError e] in
  match composePrompt h question with
  | Throw e => (Throw e, log ++ [asked; failed e])%list
  | Ok content =>
      let called := TranslatorCall content in
      match translator w content with
      | Throw e => (Throw e, log ++ [asked; called; failed e])%list
      | Ok data =>
          match firstChoiceContent data with
          | Throw e => (Throw e, log ++ [asked; called; failed e])%list
          | Ok sqlQuery =>
              let answered := ConsoleLog [LogText "response"; LogValue sqlQuery] in
              match dataStore w sqlQuery with
              | Throw e =>
                  (Throw e,
                   log ++ [asked; called; answered; StoreQuery sqlQuery; failed e])%list
              | Ok rows =>
                  (Ok rows, log ++ [asked; called; answered; StoreQuery sqlQuery])%list
              end
          end
      end
  end.
Proof.
  unfold queryDatabase, tryIO, axios_post, pool_query, bind, emit, liftOutcome, ret, throw.
  cbv zeta.
  destruct (composePrompt h question) as [content|e];
    [destruct (translator w content) as [data|e];
     [destruct (firstChoiceContent data) as [sqlQuery|e];
      [destruct (dataStore w sqlQuery) as [rows|e]|]|]|];
    rewrite <- ?app_assoc; reflexivity.
Qed.

(** The prompt for a question that is a string. *)
Lemma composePrompt_string (h : Host) (Q : string) :
  composePrompt h (JString Q) = Ok (aiPrompt ++ Q).
Proof.
  reflexivity.
Qed.

Lemma queryDatabase_result (h : Host) (w : World) (question : JsValue) (log : list Event) :
  fst (queryDatabase h w question log) = pipelineResult h w question.
Proof.
  rewrite queryDatabase_run. unfold pipelineResult. cbv zeta.
  destruct (composePrompt h question) as [content|e]; [|reflexivity].
  cbn [obind]. destruct (translator w content) as [data|e]; [|reflexivity].
  cbn [obind]. destruct (firstChoiceContent data) as [sqlQuery|e]; [|reflexivity].
  cbn [obind]. destruct (dataStore w sqlQuery); reflexivity.
Qed.

(** A prompt that cannot be composed, a rejected translator call, or an
    envelope on which reading [choices[0].message.content] throws, ends
    the run with that error before the data store is queried. *)
Lemma queryDatabase_translation_throws (h : Host) (w : World) (question : JsValue)
      (e : JsError) :
  (content <- composePrompt h question ;;
   data <- translator w content ;;
   firstChoiceContent data)%outcome
  = Throw e ->
  fst (queryDatabase h w question []) = Throw e /\
  storeQueries (snd (queryDatabase h w question [])) = [].
Proof.
  intros He. rewrite queryDatabase_run. cbv zeta.
  destruct (composePrompt h question) as [content|e0]; cbn [obind] in He.
  - destruct (translator w content) as [data|e']; cbn [obind] in He.
    + rewrite He. split; reflexivity.
    + injection He as ->. split; reflexivity.
  - injection He as ->. split; reflexivity.
Qed.

(** Whatever the envelope's first message holds as [content], text or
    not, is what the data store is asked to run. *)
Lemma queryDatabase_queries_content (h : Host) (w : World) (question : JsValue)
      (prompt : string) (data content : JsValue) :
  composePrompt h question = Ok prompt ->
  translator w prompt = Ok data ->
  firstChoiceContent data = Ok content ->
  storeQueries (snd (queryDatabase h w question [])) = [content].
Proof.
  intros Hp Hd Hc. rewrite queryDatabase_run, Hp. cbv zeta. rewrite Hd, Hc.
  destruct (dataStore w content); reflexivity.
Qed.

(** The two rows of the end-to-end scenario reach the channel as one
    message of two sections with a divider between them. *)
Example app_mention_two_rows :
  postedMessages (snd (app_mention utcHost (worldReturning exampleRows) exampleMention []))
  = [ {| msg_channel := "C024BE91L";
         msg_blocks := Some [sectionOf utcHost (nth 0 exampleRows JNull);
                             DividerBlock;
                             sectionOf utcHost (nth 1 exampleRows JNull)];
         msg_text := "Data found, please use the slack web, desktop or mobile client." |} ].
Proof. vm_compute. reflexivity. Qed.

(** Values as JSON delivers them: a fractional number and a large one
    are printed as JavaScript prints them, and a plain object with an own
    property [toString] has no string form, in a row as in a question. *)
Example convertJsonToSlackBlocks_numbers :
  convertJsonToSlackBlocks utcHost
    (JArray [JObject [("answer_value", JNumber 13.5%float);
                      ("patient_key", JNumber 9223372036854775808%float)]])
  = Ok {| blocks :=
            [SectionBlock
               [ {| type := "mrkdwn"; text := "*Answer Value:*" ++ newline ++ "13.5" |};
                 {| type := "mrkdwn";
                    text := "*Patient Key:*" ++ newline ++ "9223372036854776000" |} ]] |}.
Proof. vm_compute. reflexivity. Qed.

Example convertJsonToSlackBlocks_own_toString :
  convertJsonToSlackBlocks utcHost
    (JArray [JObject [("note", JObject [("toString", JNumber 1%float)])]])
  = Throw (TypeError "value.toString is not a function").
Proof. reflexivity. Qed.

Example ask_question_without_string_form :
  responses (snd (ask utcHost (worldReturning exampleRows)
                    (JObject [("question", JObject [("toString", JNumber 1%float)])]) []))
  = [ {| status := 500; body := TextBody "Server Error" |} ] /\
  translatorCalls (snd (ask utcHost (worldReturning exampleRows)
                          (JObject [("question", JObject [("toString", JNumber 1%float)])]) []))
  = [].
Proof. split; reflexivity. Qed.

(* ================================================================= *)
(** ** The renderer's contract *)

(** C1 (amended).  Given an empty row set the renderer does not return a
    "no data" value: it throws [Error("JSON data should be a non-empty
    array.")].  The plain notice comes from the mention handler, which
    tests the row set itself: when the pipeline returns no rows it posts
    exactly one message, the text "No data found" with no blocks, to the
    channel of the event. *)
Theorem C1_empty_rows_throw_and_handler_notifies
        (h : Host) (w : World) (event : MentionEvent) :
  pipelineResult h w (JString (event_text event)) = Ok [] ->
  convertJsonToSlackBlocks h (JArray [])
  = Throw (Error "JSON data should be a non-empty array.") /\
  postedMessages (snd (app_mention h w event []))
  = [ {| msg_channel := event_channel event;
         msg_blocks := None;
         msg_text := "No data found" |} ].
Proof.
  intros Hrows. split; [reflexivity|].
  unfold app_mention, tryIO, bind, emit. rewrite queryDatabase_run. cbv zeta.
  unfold pipelineResult in Hrows. rewrite composePrompt_string in *.
  cbn [obind] in Hrows.
  destruct (translator w (aiPrompt ++ event_text event)) as [data|e];
    cbn [obind] in Hrows; [|discriminate].
  destruct (firstChoiceContent data) as [sqlQuery|e]; cbn [obind] in Hrows; [|discriminate].
  rewrite Hrows. reflexivity.
Qed.

Lemma C1_empty_rows_witness :
  pipelineResult utcHost (worldReturning []) (JString (event_text exampleMention)) = Ok [] /\
  convertJsonToSlackBlocks utcHost (JArray [])
  = Throw (Error "JSON data should be a non-empty array.") /\
  postedMessages (snd (app_mention utcHost (worldReturning []) exampleMention []))
  = [ {| msg_channel := "C024BE91L"; msg_blocks := None; msg_text := "No data found" |} ].
Proof.
  split; [reflexivity|].
  apply (C1_empty_rows_throw_and_handler_notifies utcHost (worldReturning []) exampleMention).
  reflexivity.
Defined.

(** C1, as stated, fails on the empty array: the renderer's result there
    is an exception, not a value. *)
Lemma C1_empty_array_is_an_error :
  convertJsonToSlackBlocks utcHost (JArray [])
  = Throw (Error "JSON data should be a non-empty array.").
Proof.
  reflexivity.
Qed.

(** C2 (the code at the failing input).  A value that does not parse
    under a date key does not fall back to its plain string form: the
    [Date] constructor does not throw, so the field is a date token whose
    epoch is [NaN]. *)
Lemma C2_unparseable_date_renders_NaN_token :
  Date_new utcHost (JString "not a date") = Ok NaN /\
  convertJsonToSlackBlocks utcHost (JArray [JObject [("start_date", JString "not a date")]])
  = Ok {| blocks :=
            [SectionBlock
               [ {| type := "mrkdwn";
                    text := "*Start Date:*" ++ newline
                            ++ "<!date^NaN^{date_short_pretty} at {time}|not a date>" |} ]] |}.
Proof.
  split; reflexivity.
Qed.

(** C3 (amended).  A row set of N >= 1 rows that the renderer gets
    through (every row can be enumerated, every value has a string form,
    and none is [null] or [undefined] outside the date and time fields;
    every row set of the data model is such) is rendered as 2N-1 blocks:
    the sections of the rows in order with one divider between consecutive
    sections.  So there are N sections and N-1 dividers, the blocks at even
    positions are the sections and those at odd positions the dividers, and
    the first and the last block are sections. *)
Theorem C3_sections_interleaved_with_dividers (h : Host) (rows : list JsValue) :
  (1 <= length rows)%nat ->
  forallb renderableRow rows = true ->
  exists bs : list Block,
    convertJsonToSlackBlocks h (JArray rows) = Ok {| blocks := bs |} /\
    bs = interleave (map (sectionOf h) rows) /\
    countType "section" bs = length rows /\
    countType "divider" bs = (length rows - 1)%nat /\
    length bs = (2 * length rows - 1)%nat /\
    (forall i : nat, (i < length bs)%nat ->
       blockType (nth i bs DividerBlock) = if Nat.even i then "section" else "divider").
Proof.
  intros Hn Hall. exists (interleave (map (sectionOf h) rows)).
  destruct rows as [|row rest]; [cbn in Hn; lia|].
  split; [apply convertJsonToSlackBlocks_renderable; [discriminate|assumption]|].
  split; [reflexivity|].
  cbn [map interleave length].
  split; [|split; [|split]].
  - change (countType "section" (sectionOf h row :: divided (map (sectionOf h) rest)))
      with (S (countType "section" (divided (map (sectionOf h) rest)))).
    now rewrite divided_count_section.
  - change (countType "divider" (sectionOf h row :: divided (map (sectionOf h) rest)))
      with (countType "divider" (divided (map (sectionOf h) rest))).
    rewrite divided_count_divider. lia.
  - rewrite divided_length, length_map. lia.
  - intros i Hi. rewrite divided_length, length_map in Hi.
    destruct i as [|i]; [reflexivity|].
    cbn [nth]. rewrite divided_nth by lia.
    rewrite Nat.even_succ, <- Nat.negb_even. now destruct (Nat.even i).
Qed.

Lemma C3_two_rows_witness :
  (1 <= length exampleRows)%nat /\
  forallb renderableRow exampleRows = true /\
  exists bs : list Block,
    convertJsonToSlackBlocks utcHost (JArray exampleRows) = Ok {| blocks := bs |} /\
    bs = interleave (map (sectionOf utcHost) exampleRows) /\
    countType "section" bs = 2%nat /\
    countType "divider" bs = 1%nat /\
    length bs = 3%nat /\
    (forall i : nat, (i < length bs)%nat ->
       blockType (nth i bs DividerBlock) = if Nat.even i then "section" else "divider").
Proof.
  split; [cbn; lia|]. split; [reflexivity|].
  apply (C3_sections_interleaved_with_dividers utcHost exampleRows); [cbn; lia|reflexivity].
Defined.

(** C3, as stated, fails on a row set with a [null] outside the date
    fields: there is no block sequence, the renderer throws. *)
Lemma C3_null_field_aborts_rendering :
  convertJsonToSlackBlocks utcHost
    (JArray [JObject [("measurement", JString "Hemoglobin"); ("clinic_name", JNull)]])
  = Throw (TypeError "Cannot read properties of null (reading 'toString')").
Proof.
  reflexivity.
Qed.

(** C5.  Under a key that contains "date" or "time" in any case, a value
    whose time value is [ms] milliseconds is rendered as the label and the
    date token [<!date^E^{date_short_pretty} at {time}|RAW>], where [E] is
    [ms / 1000] rounded down, in decimal, and [RAW] is the string form of
    the value as it came (for a string, the string itself), which such a
    value has. *)
Theorem C5_date_field_token
        (h : Host) (key : string) (value : JsValue) (ms : Z)
        (fields : list Field) (index : nat) :
  isDateKey key = true ->
  Date_new h value = Ok (Num ms) ->
  exists raw : string,
    ToString h value = Ok raw /\
    pushField h fields (key, value) index
    = Ok (fields ++
          [ {| type := "mrkdwn";
               text := "*" ++ humanLabel key ++ ":*" ++ newline
                       ++ "<!date^" ++ numberToString (Num (ms / 1000))
                       ++ "^{date_short_pretty} at {time}|" ++ raw ++ ">" |} ])%list.
Proof.
  intros Hk Hd.
  pose proof (Date_new_defined_convertible _ _ _ Hd) as Hc.
  exists (stringForm h value). split; [now apply ToString_stringForm|].
  unfold pushField.
  rewrite (formattedValue_date _ _ _ Hk Hc). unfold timeValue. rewrite Hd.
  cbn [obind Math_floor_div]. now rewrite formattedKey_humanLabel.
Qed.

Lemma C5_iso_timestamp_witness :
  isDateKey "evaluation_date_time" = true /\
  Date_new utcHost (JString "2024-01-15T10:30:00Z") = Ok (Num 1705314600000) /\
  pushField utcHost [] ("evaluation_date_time", JString "2024-01-15T10:30:00Z") 0
  = Ok [ {| type := "mrkdwn";
            text := "*Evaluation Date Time:*" ++ newline
                    ++ "<!date^1705314600^{date_short_pretty} at {time}|2024-01-15T10:30:00Z>" |} ].
Proof.
  split; [reflexivity|]. split; [reflexivity|].
  destruct (C5_date_field_token utcHost "evaluation_date_time"
              (JString "2024-01-15T10:30:00Z") 1705314600000 [] 0 eq_refl eq_refl)
    as [raw [Hraw Hpush]].
  cbn [ToString] in Hraw. injection Hraw as <-. exact Hpush.
Defined.

(** C6 (amended).  The label of every field is its name with every
    underscore replaced by a space and every word title-cased (the first
    character of each run of word characters made upper case), and every
    field the renderer pushes carries that label.  Under a key that is not
    a date or time key, a value that is not [null] or [undefined] and has
    a string form is rendered as that plain string form.  For
    [public_patient_id] and 42 the label is "Public Patient Id" and the
    value text "42". *)
Theorem C6_label_and_plain_value
        (h : Host) (key : string) (value : JsValue)
        (fields : list Field) (index : nat) :
  formattedKey key = titleCaseWords (replaceUnderscores key) /\
  (forall pushed : list Field,
     pushField h fields (key, value) index = Ok pushed ->
     exists shown : string,
       pushed = (fields ++
                 [ {| type := "mrkdwn";
                      text := "*" ++ titleCaseWords (replaceUnderscores key)
                              ++ ":*" ++ newline ++ shown |} ])%list) /\
  (isDateKey key = false ->
   isNullish value = false ->
   convertible value = true ->
   exists plain : string,
     ToString h value = Ok plain /\
     pushField h fields (key, value) index
     = Ok (fields ++
           [ {| type := "mrkdwn";
                text := "*" ++ titleCaseWords (replaceUnderscores key)
                        ++ ":*" ++ newline ++ plain |} ])%list).
Proof.
  split; [apply formattedKey_humanLabel|]. split.
  - intros pushed. unfold pushField.
    destruct (formattedValue h key value) as [fv|e]; cbn [obind]; [|discriminate].
    intros [= <-]. exists fv. now rewrite formattedKey_humanLabel.
  - intros Hk Hn Hc. exists (stringForm h value).
    split; [now apply ToString_stringForm|].
    unfold pushField. rewrite (formattedValue_plain _ _ _ Hk).
    rewrite (toStringMethod_defined _ _ Hn Hc). cbn [obind].
    now rewrite formattedKey_humanLabel.
Qed.

Lemma C6_public_patient_id_witness :
  formattedKey "public_patient_id" = "Public Patient Id" /\
  ToString utcHost (JNumber 42%float) = Ok "42" /\
  pushField utcHost [] ("public_patient_id", JNumber 42%float) 0
  = Ok [ {| type := "mrkdwn"; text := "*Public Patient Id:*" ++ newline ++ "42" |} ].
Proof.
  destruct (C6_label_and_plain_value utcHost "public_patient_id" (JNumber 42%float) [] 0)
    as [Hlabel [_ Hplain]].
  destruct (Hplain eq_refl eq_refl eq_refl) as [plain [Hraw Hpush]].
  split; [exact Hlabel|].
  assert (Hp : plain = "42").
  { assert (H42 : ToString utcHost (JNumber 42%float) = Ok "42") by (vm_compute; reflexivity).
    rewrite H42 in Hraw. now injection Hraw. }
  subst plain. split; [exact Hraw | exact Hpush].
Defined.

(** C6, as stated, fails on a field that is [null]: it is not rendered as
    a string form, the renderer throws. *)
Lemma C6_null_value_is_not_rendered :
  isDateKey "clinic_name" = false /\
  pushField utcHost [] ("clinic_name", JNull) 0
  = Throw (TypeError "Cannot read properties of null (reading 'toString')").
Proof.
  split; reflexivity.
Qed.

(** C8.  On an input that is not an array, and on the empty array, the
    renderer throws [Error("JSON data should be a non-empty array.")]; it
    returns no message. *)
Theorem C8_not_a_nonempty_array_throws (h : Host) (jsonData : JsValue) :
  Array_isArray jsonData = false \/ jsonData = JArray [] ->
  convertJsonToSlackBlocks h jsonData
  = Throw (Error "JSON data should be a non-empty array.").
Proof.
  intros [Hna | ->]; [|reflexivity].
  unfold convertJsonToSlackBlocks. now rewrite Hna.
Qed.

Lemma C8_object_input_witness :
  (Array_isArray (JObject [("rows", JArray [])]) = false
   \/ JObject [("rows", JArray [])] = JArray []) /\
  convertJsonToSlackBlocks utcHost (JObject [("rows", JArray [])])
  = Throw (Error "JSON data should be a non-empty array.").
Proof.
  split; [left; reflexivity|].
  apply (C8_not_a_nonempty_array_throws utcHost (JObject [("rows", JArray [])])).
  left; reflexivity.
Defined.

(** C10 (amended).  A row set with a row that has a field which is [null]
    or [undefined] under a key that is not a date or time key makes the
    renderer throw a [TypeError]: no message is returned, whatever the
    other rows and fields are. *)
Theorem C10_null_outside_date_fields_throws
        (h : Host) (rows : list JsValue) (row : JsValue)
        (entries : list (string * JsValue)) (key : string) (value : JsValue) :
  In row rows ->
  Object_entries row = Ok entries ->
  In (key, value) entries ->
  isDateKey key = false ->
  isNullish value = true ->
  exists msg : string,
    convertJsonToSlackBlocks h (JArray rows) = Throw (TypeError msg).
Proof.
  intros Hrow He Hin Hk Hn.
  destruct (forEach_throws (pushRow h) isTypeError (pushRow_throws_TypeError h)
              rows row Hrow (pushRow_nullish h row entries key value He Hin Hk Hn)
              0%nat [])
    as [e [Hthrow [msg ->]]].
  exists msg. unfold convertJsonToSlackBlocks.
  destruct rows as [|r rest]; [destruct Hrow|].
  cbn [Array_isArray arrayLength arrayElements negb orb length Nat.eqb].
  now rewrite Hthrow.
Qed.

Lemma C10_null_clinic_name_witness :
  exists msg : string,
    convertJsonToSlackBlocks utcHost
      (JArray [JObject [("measurement", JString "Hemoglobin"); ("clinic_name", JNull)]])
    = Throw (TypeError msg).
Proof.
  apply (C10_null_outside_date_fields_throws utcHost
           [JObject [("measurement", JString "Hemoglobin"); ("clinic_name", JNull)]]
           (JObject [("measurement", JString "Hemoglobin"); ("clinic_name", JNull)])
           [("measurement", JString "Hemoglobin"); ("clinic_name", JNull)]
           "clinic_name" JNull).
  - left; reflexivity.
  - reflexivity.
  - right; left; reflexivity.
  - reflexivity.
  - reflexivity.
Defined.

(** C10, as stated, fails under a date key: [null] there is passed to the
    [Date] constructor, not to [toString], and the row is rendered (with
    the epoch 0 and the fallback text "null"). *)
Lemma C10_null_date_field_is_rendered :
  convertJsonToSlackBlocks utcHost (JArray [JObject [("date_started", JNull)]])
  = Ok {| blocks :=
            [SectionBlock
               [ {| type := "mrkdwn";
                    text := "*Date Started:*" ++ newline
                            ++ "<!date^0^{date_short_pretty} at {time}|null>" |} ]] |}.
Proof.
  reflexivity.
Qed.

(* ================================================================= *)
(** ** The prompt and the entry points *)

Lemma prefix_append (s t : string) : prefix s (s ++ t) = true.
Proof.
  apply prefix_iff. now exists t.
Qed.

Lemma substring_whole (t : string) : substring 0 (String.length t) t = t.
Proof.
  induction t as [|c r IH]; cbn; [reflexivity|now rewrite IH].
Qed.

Lemma substring_append (s t : string) :
  substring (String.length s) (String.length t) (s ++ t) = t.
Proof.
  induction s as [|c r IH]; cbn; [apply substring_whole|assumption].
Qed.

Lemma length_append (s t : string) :
  String.length (s ++ t) = (String.length s + String.length t)%nat.
Proof.
  induction s as [|c r IH]; cbn; [reflexivity|now rewrite IH].
Qed.

Lemma append_empty (s : string) : s ++ "" = s.
Proof.
  induction s as [|c r IH]; cbn; [reflexivity|now rewrite IH].
Qed.

(** C7.  For a question that is the string [Q] the prompt is [aiPrompt]
    followed by [Q] and nothing else: it starts with the whole of
    [aiPrompt], its remainder after [aiPrompt] is [Q] (so it is [aiPrompt]
    itself for the empty question), and this string is the content of the
    one message [queryDatabase] sends to the translator. *)
Theorem C7_prompt_is_instructions_then_question (h : Host) (w : World) (Q : string) :
  composePrompt h (JString Q) = Ok (aiPrompt ++ Q) /\
  prefix aiPrompt (aiPrompt ++ Q) = true /\
  substring (String.length aiPrompt) (String.length Q) (aiPrompt ++ Q) = Q /\
  String.length (aiPrompt ++ Q) = (String.length aiPrompt + String.length Q)%nat /\
  composePrompt h (JString "") = Ok aiPrompt /\
  translatorCalls (snd (queryDatabase h w (JString Q) [])) = [aiPrompt ++ Q].
Proof.
  split; [reflexivity|].
  split; [apply prefix_append|].
  split; [apply substring_append|].
  split; [apply length_append|].
  split; [rewrite composePrompt_string; now rewrite append_empty|].
  rewrite queryDatabase_run, composePrompt_string. cbv zeta.
  destruct (translator w (aiPrompt ++ Q)) as [data|e]; [|reflexivity].
  destruct (firstChoiceContent data) as [sqlQuery|e]; [|reflexivity].
  destruct (dataStore w sqlQuery); reflexivity.
Qed.

(** C4 (the code at the failing input).  When the translator answers 200
    with a first message whose [content] is [null], reading the content
    does not throw and [pool.query] is called with [null]: the data store
    is queried although no query text was extracted. *)
Lemma C4_null_content_reaches_the_store :
  composePrompt utcHost (JString "how many patients")
  = Ok (aiPrompt ++ "how many patients") /\
  translator worldWithNullContent (aiPrompt ++ "how many patients")
  = Ok (envelope JNull) /\
  firstChoiceContent (envelope JNull) = Ok JNull /\
  storeQueries (snd (queryDatabase utcHost worldWithNullContent
                       (JString "how many patients") []))
  = [JNull].
Proof.
  split; [reflexivity|]. split; [reflexivity|]. split; [reflexivity|].
  apply (queryDatabase_queries_content utcHost worldWithNullContent
           (JString "how many patients") (aiPrompt ++ "how many patients")
           (envelope JNull) JNull); reflexivity.
Qed.

(** C9.  A request whose body yields a question gets exactly one
    response.  When the pipeline succeeds (the prompt is composed, the
    translator answers, the content is read and the data store returns
    rows) it is 200 with the rows the store returned, as they are; when a
    step fails it is 500 with the text "Server Error", the same for every
    error. *)
Theorem C9_ask_responds_rows_or_server_error
        (h : Host) (w : World) (reqBody question : JsValue) :
  destructureQuestion reqBody = Ok question ->
  responses (snd (ask h w reqBody []))
  = [ match pipelineResult h w question with
      | Ok rows => {| status := 200; body := JsonBody (JArray rows) |}
      | Throw _ => {| status := 500; body := TextBody "Server Error" |}
      end ].
Proof.
  intros Hq. unfold ask, bind, liftOutcome, tryIO, emit. rewrite Hq.
  rewrite queryDatabase_run. unfold pipelineResult. cbv zeta.
  destruct (composePrompt h question) as [content|e]; cbn [obind]; [|reflexivity].
  destruct (translator w content) as [data|e]; cbn [obind]; [|reflexivity].
  destruct (firstChoiceContent data) as [sqlQuery|e]; cbn [obind]; [|reflexivity].
  destruct (dataStore w sqlQuery); reflexivity.
Qed.

Lemma C9_ask_two_rows_witness :
  destructureQuestion
    (JObject [("question", JString "average hemoglobin for clinic 3 last month")])
  = Ok (JString "average hemoglobin for clinic 3 last month") /\
  responses (snd (ask utcHost (worldReturning exampleRows)
                    (JObject [("question",
                               JString "average hemoglobin for clinic 3 last month")]) []))
  = [ {| status := 200; body := JsonBody (JArray exampleRows) |} ].
Proof.
  split; [reflexivity|].
  apply (C9_ask_responds_rows_or_server_error utcHost (worldReturning exampleRows)
           (JObject [("question", JString "average hemoglobin for clinic 3 last month")])
           (JString "average hemoglobin for clinic 3 last month")).
  reflexivity.
Defined.

(* ================================================================= *)
(** ** More of the renderer *)

Lemma interleave_app (l1 l2 : list Block) :
  l1 <> [] -> l2 <> [] ->
  interleave (l1 ++ l2) = (interleave l1 ++ DividerBlock :: interleave l2)%list.
Proof.
  destruct l1 as [|a l1]; [congruence|]. destruct l2 as [|b l2]; [congruence|].
  intros _ _. cbn [app interleave]. unfold divided.
  rewrite flat_map_app. cbn [flat_map app]. reflexivity.
Qed.

Lemma interleave_nth_error_even (l : list Block) (i : nat) :
  nth_error (interleave l) (2 * i) = nth_error l i.
Proof.
  revert i. induction l as [|x rest IH]; intros i.
  - now destruct i.
  - destruct i as [|j]; [reflexivity|].
    replace (2 * S j)%nat with (S (S (2 * j))) by lia.
    cbn [interleave nth_error]. destruct rest as [|y r].
    + now destruct j.
    + unfold divided. cbn [flat_map app nth_error].
      exact (IH j).
Qed.

(** X2.  Rendering distributes over concatenation: the message of two row
    sets put end to end is the message of the first, a divider, and the
    message of the second.  No row's section depends on another row. *)
Theorem convertJsonToSlackBlocks_append (h : Host) (rows1 rows2 : list JsValue) :
  rows1 <> [] -> rows2 <> [] ->
  forallb renderableRow rows1 = true ->
  forallb renderableRow rows2 = true ->
  exists bs1 bs2 : list Block,
    convertJsonToSlackBlocks h (JArray rows1) = Ok {| blocks := bs1 |} /\
    convertJsonToSlackBlocks h (JArray rows2) = Ok {| blocks := bs2 |} /\
    convertJsonToSlackBlocks h (JArray (rows1 ++ rows2))
    = Ok {| blocks := (bs1 ++ DividerBlock :: bs2)%list |}.
Proof.
  intros Hne1 Hne2 Hr1 Hr2.
  exists (interleave (map (sectionOf h) rows1)), (interleave (map (sectionOf h) rows2)).
  split; [now apply convertJsonToSlackBlocks_renderable|].
  split; [now apply convertJsonToSlackBlocks_renderable|].
  rewrite convertJsonToSlackBlocks_renderable.
  - rewrite map_app, interleave_app; [reflexivity| |];
      intros Hnil; apply map_eq_nil in Hnil; contradiction.
  - intros Hnil. apply app_eq_nil in Hnil as [Hnil _]. contradiction.
  - rewrite forallb_app, Hr1, Hr2. reflexivity.
Qed.

Lemma convertJsonToSlackBlocks_append_witness :
  exists bs1 bs2 : list Block,
    convertJsonToSlackBlocks utcHost (JArray exampleRows) = Ok {| blocks := bs1 |} /\
    convertJsonToSlackBlocks utcHost (JArray [JObject [("clinic_id", JNumber 3%float)]])
    = Ok {| blocks := bs2 |} /\
    convertJsonToSlackBlocks utcHost
      (JArray (exampleRows ++ [JObject [("clinic_id", JNumber 3%float)]]))
    = Ok {| blocks := (bs1 ++ DividerBlock :: bs2)%list |}.
Proof.
  apply (convertJsonToSlackBlocks_append utcHost exampleRows
           [JObject [("clinic_id", JNumber 3%float)]]);
    first [discriminate | reflexivity].
Defined.

(** X3.  Order is kept: the block at position 2i is the section of row i, and
    it holds one [mrkdwn] field per property of that row, in the row's own
    key order, whatever keys the other rows have. *)
Theorem convertJsonToSlackBlocks_section_of_row
        (h : Host) (rows : list JsValue) (i : nat) (row : JsValue) :
  forallb renderableRow rows = true ->
  nth_error rows i = Some row ->
  exists bs : list Block,
    convertJsonToSlackBlocks h (JArray rows) = Ok {| blocks := bs |} /\
    nth_error bs (2 * i) = Some (SectionBlock (map (fieldOf h) (entriesOf row))) /\
    map type (map (fieldOf h) (entriesOf row))
    = map (fun _ => "mrkdwn") (entriesOf row).
Proof.
  intros Hall Hi. exists (interleave (map (sectionOf h) rows)).
  split; [|split].
  - apply convertJsonToSlackBlocks_renderable; [|assumption].
    intros ->. now destruct i.
  - rewrite interleave_nth_error_even, nth_error_map, Hi. reflexivity.
  - rewrite map_map. reflexivity.
Qed.

Lemma convertJsonToSlackBlocks_section_of_row_witness :
  exists bs : list Block,
    convertJsonToSlackBlocks utcHost
      (JArray [JObject [("a", JNumber 1%float)];
               JObject [("b_c", JString "x"); ("d", JBool true)]])
    = Ok {| blocks := bs |} /\
    nth_error bs 2
    = Some (SectionBlock
              [ {| type := "mrkdwn"; text := "*B C:*" ++ newline ++ "x" |};
                {| type := "mrkdwn"; text := "*D:*" ++ newline ++ "true" |} ]) /\
    map type (map (fieldOf utcHost) [("b_c", JString "x"); ("d", JBool true)])
    = ["mrkdwn"; "mrkdwn"].
Proof.
  apply (convertJsonToSlackBlocks_section_of_row utcHost
           [JObject [("a", JNumber 1%float)];
            JObject [("b_c", JString "x"); ("d", JBool true)]]
           1 (JObject [("b_c", JString "x"); ("d", JBool true)]));
    reflexivity.
Defined.

(** X4.  Past the guard the only exceptions are the engine's: on a non-empty
    array the renderer never throws its own [Error], only a [TypeError]. *)
Theorem convertJsonToSlackBlocks_throws_TypeError
        (h : Host) (row : JsValue) (rest : list JsValue) (e : JsError) :
  convertJsonToSlackBlocks h (JArray (row :: rest)) = Throw e ->
  isTypeError e.
Proof.
  unfold convertJsonToSlackBlocks.
  cbn [Array_isArray arrayLength arrayElements negb orb length Nat.eqb].
  destruct (forEach (pushRow h) (row :: rest) 0%nat []) as [bs|e'] eqn:Hf;
    cbn [obind]; [discriminate|].
  intros [= <-].
  exact (forEach_throw_inv _ _ (pushRow_throws_TypeError h) _ _ _ _ Hf).
Qed.

Lemma convertJsonToSlackBlocks_throws_TypeError_witness :
  convertJsonToSlackBlocks utcHost (JArray [JNull; JObject [("a", JNumber 1%float)]])
  = Throw (TypeError "Cannot convert undefined or null to object") /\
  isTypeError (TypeError "Cannot convert undefined or null to object").
Proof.
  split; [reflexivity|].
  apply (convertJsonToSlackBlocks_throws_TypeError utcHost JNull
           [JObject [("a", JNumber 1%float)]]).
  reflexivity.
Defined.

(* ================================================================= *)
(** ** More of the labels and of the date keys *)

Lemma isWordChar_charToUpperCase (c : ascii) :
  isWordChar (charToUpperCase c) = isWordChar c.
Proof.
  destruct c as [[] [] [] [] [] [] [] []]; reflexivity.
Qed.

Lemma charToUpperCase_idempotent (c : ascii) :
  charToUpperCase (charToUpperCase c) = charToUpperCase c.
Proof.
  destruct c as [[] [] [] [] [] [] [] []]; reflexivity.
Qed.

Lemma charToUpperCase_underscore (c : ascii) :
  (charCode (charToUpperCase c) =? 95) = (charCode c =? 95).
Proof.
  destruct c as [[] [] [] [] [] [] [] []]; reflexivity.
Qed.

Lemma includes_underscore_cons (c : ascii) (r : string) :
  includes (String c r) "_" = (charCode c =? 95) || includes r "_".
Proof.
  cbn [includes prefix]. f_equal.
  destruct (ascii_dec "_" c) as [<-|Hc].
  - now destruct r.
  - destruct c as [[] [] [] [] [] [] [] []]; try reflexivity. congruence.
Qed.

Lemma replaceUnderscores_length (s : string) :
  String.length (replaceUnderscores s) = String.length s.
Proof.
  induction s as [|c r IH]; cbn; [reflexivity|now rewrite IH].
Qed.

Lemma upperCaseWordStarts_length (p : bool) (s : string) :
  String.length (upperCaseWordStarts p s) = String.length s.
Proof.
  revert p. induction s as [|c r IH]; intros p; cbn; [reflexivity|now rewrite IH].
Qed.

Lemma replaceUnderscores_clean (s : string) :
  includes (replaceUnderscores s) "_" = false.
Proof.
  induction s as [|c r IH]; [reflexivity|].
  cbn [replaceUnderscores]. rewrite includes_underscore_cons, IH, orb_false_r.
  destruct (charCode c =? 95) eqn:Hc; [reflexivity|assumption].
Qed.

Lemma upperCaseWordStarts_clean (p : bool) (s : string) :
  includes s "_" = false -> includes (upperCaseWordStarts p s) "_" = false.
Proof.
  revert p. induction s as [|c r IH]; intros p; [intros _; reflexivity|].
  cbn [upperCaseWordStarts]. rewrite !includes_underscore_cons.
  intros H. apply orb_false_iff in H as [Hc Hr].
  rewrite (IH _ Hr), orb_false_r.
  destruct (isWordChar c && negb p); [|assumption].
  now rewrite charToUpperCase_underscore.
Qed.

Lemma replaceUnderscores_noop (s : string) :
  includes s "_" = false -> replaceUnderscores s = s.
Proof.
  induction s as [|c r IH]; [reflexivity|].
  rewrite includes_underscore_cons. intros H.
  apply orb_false_iff in H as [Hc Hr].
  cbn [replaceUnderscores]. now rewrite Hc, (IH Hr).
Qed.

Lemma upperCaseWordStarts_idempotent (p : bool) (s : string) :
  upperCaseWordStarts p (upperCaseWordStarts p s) = upperCaseWordStarts p s.
Proof.
  revert p. induction s as [|c r IH]; intros p; [reflexivity|].
  cbn [upperCaseWordStarts].
  destruct (isWordChar c && negb p) eqn:Hb.
  - rewrite isWordChar_charToUpperCase, Hb, charToUpperCase_idempotent, IH. reflexivity.
  - rewrite Hb, IH. reflexivity.
Qed.

(** X5.  The label is as long as the key, holds no underscore, and labelling
    a label changes nothing. *)
Theorem formattedKey_shape (key : string) :
  String.length (formattedKey key) = String.length key /\
  includes (formattedKey key) "_" = false /\
  formattedKey (formattedKey key) = formattedKey key.
Proof.
  unfold formattedKey. split; [|split].
  - now rewrite upperCaseWordStarts_length, replaceUnderscores_length.
  - apply upperCaseWordStarts_clean, replaceUnderscores_clean.
  - rewrite (replaceUnderscores_noop (upperCaseWordStarts false (replaceUnderscores key))).
    + apply upperCaseWordStarts_idempotent.
    + apply upperCaseWordStarts_clean, replaceUnderscores_clean.
Qed.

Lemma toLowerCase_append (s t : string) :
  toLowerCase (s ++ t) = toLowerCase s ++ toLowerCase t.
Proof.
  induction s as [|c r IH]; cbn; [reflexivity|now rewrite IH].
Qed.

(** X6.  The date test looks for the letters anywhere in the name and in any
    case: a key that merely embeds "date" or "time" ([candidate_name],
    [sometimes], [last_UPDATEd]) is a date key.  Its value is never
    rendered as plain text: it is rendered as a date token when it has a
    string form, and makes the field throw a [TypeError] when it has
    none. *)
Theorem isDateKey_embedded (pre word post : string) :
  toLowerCase word = "date" \/ toLowerCase word = "time" ->
  isDateKey (pre ++ word ++ post) = true /\
  forall (h : Host) (value : JsValue),
    (convertible value = true ->
     formattedValue h (pre ++ word ++ post) value
     = Ok (dateToken h (Math_floor_div (timeValue h value) 1000) value)) /\
    (convertible value = false ->
     exists msg : string,
       formattedValue h (pre ++ word ++ post) value = Throw (TypeError msg)).
Proof.
  intros Hw.
  assert (Hk : isDateKey (pre ++ word ++ post) = true).
  { apply isDateKey_iff. exists (toLowerCase pre), (toLowerCase post).
    rewrite !toLowerCase_append. destruct Hw as [-> | ->]; [left | right]; reflexivity. }
  split; [assumption|]. intros h value. split; intros Hc.
  - now apply formattedValue_date.
  - now apply formattedValue_date_unconvertible.
Qed.

Lemma isDateKey_embedded_witness :
  (toLowerCase "DATE" = "date" \/ toLowerCase "DATE" = "time") /\
  isDateKey "candiDATE_name" = true /\
  forall (h : Host) (value : JsValue),
    (convertible value = true ->
     formattedValue h "candiDATE_name" value
     = Ok (dateToken h (Math_floor_div (timeValue h value) 1000) value)) /\
    (convertible value = false ->
     exists msg : string,
       formattedValue h "candiDATE_name" value = Throw (TypeError msg)).
Proof.
  split; [left; reflexivity|].
  apply (isDateKey_embedded "candi" "DATE" "_name"). left; reflexivity.
Defined.

(** X7.  The epoch of the token is the time value in whole seconds, rounded
    down, also before 1970: it is never later than the instant and less
    than a second earlier. *)
Theorem unixTimestamp_rounds_down
        (h : Host) (key : string) (value : JsValue) (ms : Z) :
  isDateKey key = true ->
  Date_new h value = Ok (Num ms) ->
  exists seconds : Z,
    formattedValue h key value = Ok (dateToken h (Num seconds) value) /\
    1000 * seconds <= ms < 1000 * seconds + 1000.
Proof.
  intros Hk Hd. exists (ms / 1000). split.
  - rewrite (formattedValue_date _ _ _ Hk (Date_new_defined_convertible _ _ _ Hd)).
    unfold timeValue. now rewrite Hd.
  - pose proof (Z.div_mod ms 1000 ltac:(lia)) as Hdm.
    pose proof (Z.mod_pos_bound ms 1000 ltac:(lia)) as Hb. lia.
Qed.

Lemma unixTimestamp_rounds_down_witness :
  isDateKey "evaluation_date_time" = true /\
  Date_new utcHost (JString "1969-12-31T23:59:59.999Z") = Ok (Num (-1)) /\
  exists seconds : Z,
    formattedValue utcHost "evaluation_date_time" (JString "1969-12-31T23:59:59.999Z")
    = Ok (dateToken utcHost (Num seconds) (JString "1969-12-31T23:59:59.999Z")) /\
    1000 * seconds <= -1 < 1000 * seconds + 1000.
Proof.
  split; [reflexivity|]. split; [reflexivity|].
  apply (unixTimestamp_rounds_down utcHost "evaluation_date_time"
           (JString "1969-12-31T23:59:59.999Z") (-1)); reflexivity.
Defined.

(* ================================================================= *)
(** ** More of the pipeline *)

(** X8.  Every run calls the translator at most once: exactly once, with
    [aiPrompt] followed by the string form of the question, when the
    question has a string form, and not at all when it has none.  It
    queries the data store at most once, and only with the content read
    from the translator's answer; it neither posts to the chat nor answers
    a request itself. *)
Theorem queryDatabase_calls (h : Host) (w : World) (question : JsValue) :
  translatorCalls (snd (queryDatabase h w question []))
  = match ToString h question with
    | Ok asked => [aiPrompt ++ asked]
    | Throw _ => []
    end /\
  storeQueries (snd (queryDatabase h w question []))
  = match (content <- composePrompt h question ;;
           data <- translator w content ;;
           firstChoiceContent data)%outcome with
    | Ok sqlQuery => [sqlQuery]
    | Throw _ => []
    end /\
  postedMessages (snd (queryDatabase h w question [])) = [] /\
  responses (snd (queryDatabase h w question [])) = [].
Proof.
  rewrite queryDatabase_run. cbv zeta. unfold composePrompt.
  destruct (ToString h question) as [asked|e]; cbn [obind];
    [|repeat split; reflexivity].
  destruct (translator w (aiPrompt ++ asked)) as [data|e]; cbn [obind];
    [|repeat split; reflexivity].
  destruct (firstChoiceContent data) as [sqlQuery|e]; [|repeat split; reflexivity].
  destruct (dataStore w sqlQuery); repeat split; reflexivity.
Qed.

(** X9.  The run ends as the first failing step does: the rows of the store, or
    the error of composing the prompt, of the translator call, of reading
    the content, or of the store, rethrown as it is.  A failure is written
    to [console.error] once, with that error; a success writes nothing
    there. *)
Theorem queryDatabase_outcome_and_error_log (h : Host) (w : World) (question : JsValue) :
  fst (queryDatabase h w question []) = pipelineResult h w question /\
  consoleErrors (snd (queryDatabase h w question []))
  = match pipelineResult h w question with
    | Ok _ => []
    | Throw e => [requestFailed e]
    end.
Proof.
  rewrite queryDatabase_run. unfold pipelineResult. cbv zeta.
  destruct (composePrompt h question) as [content|e]; cbn [obind]; [|split; reflexivity].
  destruct (translator w content) as [data|e]; cbn [obind]; [|split; reflexivity].
  destruct (firstChoiceContent data) as [sqlQuery|e]; cbn [obind]; [|split; reflexivity].
  destruct (dataStore w sqlQuery); split; reflexivity.
Qed.

(** X10.  Of the translator's answer only the first choice is read: the content
    of its message is the query, whatever further choices and further
    properties there are, and a message without [content] gives
    [undefined] instead of a failure. *)
Theorem firstChoiceContent_first_message
        (dataProps choiceProps messageProps : list (string * JsValue))
        (otherChoices : list JsValue) :
  lookupProp "choices" dataProps = JArray (JObject choiceProps :: otherChoices) ->
  lookupProp "message" choiceProps = JObject messageProps ->
  firstChoiceContent (JObject dataProps) = Ok (lookupProp "content" messageProps).
Proof.
  intros Hc Hm. unfold firstChoiceContent.
  cbn [getProp obind]. rewrite Hc. cbn [getIndex nth obind getProp].
  rewrite Hm. reflexivity.
Qed.

Lemma firstChoiceContent_first_message_witness :
  firstChoiceContent
    (JObject [("id", JString "chatcmpl-1");
              ("choices",
               JArray [JObject [("index", JNumber 0%float);
                                ("message", JObject [("role", JString "assistant")])];
                       JObject [("index", JNumber 1%float);
                                ("message", JObject [("content", JString "SELECT 1")])]])])
  = Ok JUndefined.
Proof.
  apply (firstChoiceContent_first_message
           [("id", JString "chatcmpl-1");
            ("choices",
             JArray [JObject [("index", JNumber 0%float);
                              ("message", JObject [("role", JString "assistant")])];
                     JObject [("index", JNumber 1%float);
                              ("message", JObject [("content", JString "SELECT 1")])]])]
           [("index", JNumber 0%float); ("message", JObject [("role", JString "assistant")])]
           [("role", JString "assistant")]
           [JObject [("index", JNumber 1%float);
                     ("message", JObject [("content", JString "SELECT 1")])]]);
    reflexivity.
Defined.

(** X11.  An answer without [choices], or with an empty list of them, makes the
    read throw a [TypeError]. *)
Theorem firstChoiceContent_no_choice (dataProps : list (string * JsValue)) :
  lookupProp "choices" dataProps = JUndefined \/ lookupProp "choices" dataProps = JArray [] ->
  exists msg : string, firstChoiceContent (JObject dataProps) = Throw (TypeError msg).
Proof.
  intros Hc. unfold firstChoiceContent. cbn [getProp obind].
  destruct Hc as [-> | ->]; eexists; reflexivity.
Qed.

Lemma firstChoiceContent_no_choice_witness :
  exists msg : string,
    firstChoiceContent (JObject [("error", JObject [("message", JString "Rate limit")])])
    = Throw (TypeError msg).
Proof.
  apply (firstChoiceContent_no_choice [("error", JObject [("message", JString "Rate limit")])]).
  left; reflexivity.
Defined.

(* ================================================================= *)
(** ** More of the entry points *)

(** X12.  Once the question is read from the body, the handler of [/ask] itself
    never fails: it calls the translator at most once (once, with the
    prompt for the question, when the question has a string form; not at
    all when it has none), posts nothing to the chat, and on a failure of
    the pipeline the error is on [console.error] twice under the same
    label, once from [queryDatabase] and once from the handler. *)
Theorem ask_settles (h : Host) (w : World) (reqBody question : JsValue) :
  destructureQuestion reqBody = Ok question ->
  fst (ask h w reqBody []) = Ok tt /\
  translatorCalls (snd (ask h w reqBody []))
  = match ToString h question with
    | Ok asked => [aiPrompt ++ asked]
    | Throw _ => []
    end /\
  postedMessages (snd (ask h w reqBody [])) = [] /\
  consoleErrors (snd (ask h w reqBody []))
  = match pipelineResult h w question with
    | Ok _ => []
    | Throw e => [requestFailed e; requestFailed e]
    end.
Proof.
  intros Hq. unfold ask, bind, liftOutcome, tryIO, emit. rewrite Hq.
  rewrite queryDatabase_run. unfold pipelineResult, composePrompt. cbv zeta.
  destruct (ToString h question) as [asked|e]; cbn [obind];
    [|repeat split; reflexivity].
  destruct (translator w (aiPrompt ++ asked)) as [data|e]; cbn [obind];
    [|repeat split; reflexivity].
  destruct (firstChoiceContent data) as [sqlQuery|e]; cbn [obind];
    [|repeat split; reflexivity].
  destruct (dataStore w sqlQuery); repeat split; reflexivity.
Qed.

Lemma ask_settles_witness :
  fst (ask utcHost worldWithNullContent (JObject [("question", JString "how many")]) [])
  = Ok tt /\
  translatorCalls
    (snd (ask utcHost worldWithNullContent (JObject [("question", JString "how many")]) []))
  = [aiPrompt ++ "how many"] /\
  postedMessages
    (snd (ask utcHost worldWithNullContent (JObject [("question", JString "how many")]) []))
  = [] /\
  consoleErrors
    (snd (ask utcHost worldWithNullContent (JObject [("question", JString "how many")]) []))
  = [requestFailed (TypeError "Client was passed a null or undefined query");
     requestFailed (TypeError "Client was passed a null or undefined query")].
Proof.
  apply (ask_settles utcHost worldWithNullContent
           (JObject [("question", JString "how many")]) (JString "how many")).
  reflexivity.
Defined.

(** X13.  A request whose body is [undefined] or [null] is not answered: the
    destructuring stands before the [try], so the handler throws a
    [TypeError] and nothing is called, logged or sent. *)
Theorem ask_without_body (h : Host) (w : World) (reqBody : JsValue) (log : list Event) :
  isNullish reqBody = true ->
  exists msg : string, ask h w reqBody log = (Throw (TypeError msg), log).
Proof.
  destruct reqBody; intros Hn; try discriminate Hn; eexists; reflexivity.
Qed.

Lemma ask_without_body_witness :
  exists msg : string,
    ask utcHost (worldReturning exampleRows) JUndefined [] = (Throw (TypeError msg), []).
Proof.
  apply (ask_without_body utcHost (worldReturning exampleRows) JUndefined []).
  reflexivity.
Defined.

(** X14.  A body without [question] is not refused: the question is
    [undefined], and the translator is asked the prompt followed by the
    word "undefined". *)
Theorem ask_without_question (h : Host) (w : World) (props : list (string * JsValue)) :
  lookupProp "question" props = JUndefined ->
  translatorCalls (snd (ask h w (JObject props) [])) = [aiPrompt ++ "undefined"].
Proof.
  intros Hq. unfold ask, bind, liftOutcome, tryIO, emit.
  cbn [destructureQuestion getProp]. rewrite Hq.
  rewrite queryDatabase_run. cbv zeta. unfold composePrompt. cbn [ToString obind].
  destruct (translator w (aiPrompt ++ "undefined")) as [data|e]; [|reflexivity].
  destruct (firstChoiceContent data) as [sqlQuery|e]; [|reflexivity].
  destruct (dataStore w sqlQuery); reflexivity.
Qed.

Lemma ask_without_question_witness :
  translatorCalls
    (snd (ask utcHost (worldReturning exampleRows) (JObject [("query", JString "patients")]) []))
  = [aiPrompt ++ "undefined"].
Proof.
  apply (ask_without_question utcHost (worldReturning exampleRows)
           [("query", JString "patients")]).
  reflexivity.
Defined.

Lemma convertJsonToSlackBlocks_nullish_throws
      (h : Host) (rows : list JsValue) (row : JsValue)
      (entries : list (string * JsValue)) (key : string) (value : JsValue) :
  In row rows ->
  Object_entries row = Ok entries ->
  In (key, value) entries ->
  isDateKey key = false ->
  isNullish value = true ->
  exists msg : string,
    convertJsonToSlackBlocks h (JArray rows) = Throw (TypeError msg).
Proof.
  intros Hrow He Hin Hk Hn.
  destruct (forEach_throws (pushRow h) isTypeError (pushRow_throws_TypeError h)
              rows row Hrow (pushRow_nullish h row entries key value He Hin Hk Hn)
              0%nat [])
    as [e [Hthrow [msg ->]]].
  exists msg. unfold convertJsonToSlackBlocks.
  destruct rows as [|r rest]; [destruct Hrow|].
  cbn [Array_isArray arrayLength arrayElements negb orb length Nat.eqb].
  now rewrite Hthrow.
Qed.

(** One run of the mention handler, as far as the pipeline's log. *)
Lemma app_mention_run (h : Host) (w : World) (event : MentionEvent) :
  app_mention h w event [] =
  let mentioned :=
    ConsoleLog [LogText ("Bot mentioned in channel " ++ event_channel event
                         ++ " by user " ++ event_user event
                         ++ ", message was " ++ event_text event)] in
  match queryDatabase h w (JString (event_text event)) [mentioned] with
  | (Throw e, log) => (Ok tt, log ++ [ConsoleError (respondingFailed e)])%list
  | (Ok data, log) =>
      let returned := ConsoleLog [LogText "Data returned was"; LogValue (JArray data)] in
      if (0 <? length data)%nat then
        match convertJsonToSlackBlocks h (JArray data) with
        | Ok message =>
            (Ok tt, (log ++ [returned]) ++ [PostMessage (dataFoundMessage event (blocks message))])%list
        | Throw e =>
            (Ok tt, (log ++ [returned]) ++ [ConsoleError (respondingFailed e)])%list
        end
      else (Ok tt, (log ++ [returned]) ++ [PostMessage (noDataMessage event)])%list
  end.
Proof.
  unfold app_mention, tryIO, bind, emit, liftOutcome. cbv zeta. cbn [app].
  destruct (queryDatabase h w (JString (event_text event)) _) as [[data|e] log];
    [|reflexivity].
  destruct (0 <? length data)%nat; [|reflexivity].
  destruct (convertJsonToSlackBlocks h (JArray data)); reflexivity.
Qed.

(** X15.  The mention handler never fails, whatever the translator, the store
    and the renderer do: every exception ends in [console.error].  It
    calls the translator once, with the prompt followed by the text of the
    event as it came, posts at most one message, and sends no HTTP
    response. *)
Theorem app_mention_settles (h : Host) (w : World) (event : MentionEvent) :
  fst (app_mention h w event []) = Ok tt /\
  translatorCalls (snd (app_mention h w event [])) = [aiPrompt ++ event_text event] /\
  (length (postedMessages (snd (app_mention h w event []))) <= 1)%nat /\
  responses (snd (app_mention h w event [])) = [].
Proof.
  rewrite app_mention_run. cbv zeta. rewrite queryDatabase_run. cbv zeta.
  rewrite composePrompt_string.
  destruct (translator w (aiPrompt ++ event_text event)) as [data|e];
    [|repeat split; cbn; lia].
  destruct (firstChoiceContent data) as [sqlQuery|e]; [|repeat split; cbn; lia].
  destruct (dataStore w sqlQuery) as [rows|e]; [|repeat split; cbn; lia].
  destruct (0 <? length rows)%nat; [|repeat split; cbn; lia].
  destruct (convertJsonToSlackBlocks h (JArray rows)); repeat split; cbn; lia.
Qed.

(** X16.  What reaches the channel, case by case: nothing when the pipeline
    fails or the renderer throws, the plain notice for no rows, and
    otherwise one message with the renderer's blocks and the fixed fallback
    text, in the channel of the event. *)
Theorem app_mention_posts (h : Host) (w : World) (event : MentionEvent) :
  postedMessages (snd (app_mention h w event []))
  = match pipelineResult h w (JString (event_text event)) with
    | Throw _ => []
    | Ok [] => [noDataMessage event]
    | Ok (row :: rest) =>
        match convertJsonToSlackBlocks h (JArray (row :: rest)) with
        | Ok message => [dataFoundMessage event (blocks message)]
        | Throw _ => []
        end
    end.
Proof.
  rewrite app_mention_run. cbv zeta. rewrite queryDatabase_run. unfold pipelineResult. cbv zeta.
  rewrite composePrompt_string. cbn [obind].
  destruct (translator w (aiPrompt ++ event_text event)) as [data|e];
    cbn [obind]; [|reflexivity].
  destruct (firstChoiceContent data) as [sqlQuery|e]; cbn [obind]; [|reflexivity].
  destruct (dataStore w sqlQuery) as [[|row rest]|e]; [reflexivity| |reflexivity].
  cbn [length Nat.ltb Nat.leb].
  destruct (convertJsonToSlackBlocks h (JArray (row :: rest))); reflexivity.
Qed.

(** X17.  Rows the renderer gets through reach the channel as one message: the
    sections of the rows in order, a divider between consecutive ones. *)
Theorem app_mention_posts_sections
        (h : Host) (w : World) (event : MentionEvent) (rows : list JsValue) :
  pipelineResult h w (JString (event_text event)) = Ok rows ->
  rows <> [] ->
  forallb renderableRow rows = true ->
  postedMessages (snd (app_mention h w event []))
  = [dataFoundMessage event (interleave (map (sectionOf h) rows))].
Proof.
  intros Hp Hne Hall.
  rewrite app_mention_run. cbv zeta. rewrite queryDatabase_run. unfold pipelineResult in Hp. cbv zeta.
  rewrite composePrompt_string in *. cbn [obind] in Hp.
  destruct (translator w (aiPrompt ++ event_text event)) as [data|e];
    cbn [obind] in Hp; [|discriminate].
  destruct (firstChoiceContent data) as [sqlQuery|e]; cbn [obind] in Hp; [|discriminate].
  rewrite Hp. destruct rows as [|row rest]; [congruence|].
  cbn [length Nat.ltb Nat.leb].
  rewrite (convertJsonToSlackBlocks_renderable h (row :: rest) Hne Hall). reflexivity.
Qed.

Lemma app_mention_posts_sections_witness :
  postedMessages (snd (app_mention utcHost (worldReturning exampleRows) exampleMention []))
  = [dataFoundMessage exampleMention (interleave (map (sectionOf utcHost) exampleRows))].
Proof.
  apply (app_mention_posts_sections utcHost (worldReturning exampleRows)
           exampleMention exampleRows);
    first [discriminate | reflexivity].
Defined.

(** X18.  One [null] outside the date fields silences the answer: the store
    returned rows, yet nothing is posted, not even a notice; the
    [TypeError] of the renderer goes to [console.error]. *)
Theorem app_mention_silent_on_null_field
        (h : Host) (w : World) (event : MentionEvent) (rows : list JsValue)
        (row : JsValue) (entries : list (string * JsValue))
        (key : string) (value : JsValue) :
  pipelineResult h w (JString (event_text event)) = Ok rows ->
  In row rows ->
  Object_entries row = Ok entries ->
  In (key, value) entries ->
  isDateKey key = false ->
  isNullish value = true ->
  postedMessages (snd (app_mention h w event [])) = [] /\
  exists msg : string,
    consoleErrors (snd (app_mention h w event [])) = [respondingFailed (TypeError msg)].
Proof.
  intros Hp Hrow He Hin Hk Hn.
  destruct (convertJsonToSlackBlocks_nullish_throws h rows row entries key value
              Hrow He Hin Hk Hn) as [msg Hthrow].
  rewrite app_mention_run. cbv zeta. rewrite queryDatabase_run. unfold pipelineResult in Hp. cbv zeta.
  rewrite composePrompt_string in *. cbn [obind] in Hp.
  destruct (translator w (aiPrompt ++ event_text event)) as [data|e];
    cbn [obind] in Hp; [|discriminate].
  destruct (firstChoiceContent data) as [sqlQuery|e]; cbn [obind] in Hp; [|discriminate].
  rewrite Hp. destruct rows as [|r rest]; [destruct Hrow|].
  cbn [length Nat.ltb Nat.leb]. rewrite Hthrow.
  split; [reflexivity|]. exists msg. reflexivity.
Qed.

Lemma app_mention_silent_on_null_field_witness :
  postedMessages
    (snd (app_mention utcHost
            (worldReturning [JObject [("measurement", JString "Hemoglobin");
                                      ("clinic_name", JNull)]])
            exampleMention [])) = [] /\
  exists msg : string,
    consoleErrors
      (snd (app_mention utcHost
              (worldReturning [JObject [("measurement", JString "Hemoglobin");
                                        ("clinic_name", JNull)]])
              exampleMention []))
    = [respondingFailed (TypeError msg)].
Proof.
  apply (app_mention_silent_on_null_field utcHost
           (worldReturning [JObject [("measurement", JString "Hemoglobin");
                                     ("clinic_name", JNull)]])
           exampleMention
           [JObject [("measurement", JString "Hemoglobin"); ("clinic_name", JNull)]]
           (JObject [("measurement", JString "Hemoglobin"); ("clinic_name", JNull)])
           [("measurement", JString "Hemoglobin"); ("clinic_name", JNull)]
           "clinic_name" JNull).
  - reflexivity.
  - left; reflexivity.
  - reflexivity.
  - right; left; reflexivity.
  - reflexivity.
  - reflexivity.
Defined.

(** X19.  A failure of the translator or of the store is not shown in the
    channel: nothing is posted, and the error is on [console.error] twice,
    from [queryDatabase] and from the handler. *)
Theorem app_mention_silent_on_pipeline_failure
        (h : Host) (w : World) (event : MentionEvent) (e : JsError) :
  pipelineResult h w (JString (event_text event)) = Throw e ->
  postedMessages (snd (app_mention h w event [])) = [] /\
  consoleErrors (snd (app_mention h w event [])) = [requestFailed e; respondingFailed e].
Proof.
  intros Hp. rewrite app_mention_run. cbv zeta. rewrite queryDatabase_run.
  unfold pipelineResult in Hp. cbv zeta.
  rewrite composePrompt_string in *. cbn [obind] in Hp.
  destruct (translator w (aiPrompt ++ event_text event)) as [data|e1];
    cbn [obind] in Hp.
  - destruct (firstChoiceContent data) as [sqlQuery|e2]; cbn [obind] in Hp.
    + rewrite Hp. split; reflexivity.
    + injection Hp as ->. split; reflexivity.
  - injection Hp as ->. split; reflexivity.
Qed.

Lemma app_mention_silent_on_pipeline_failure_witness :
  postedMessages (snd (app_mention utcHost worldWithNullContent exampleMention [])) = [] /\
  consoleErrors (snd (app_mention utcHost worldWithNullContent exampleMention []))
  = [requestFailed (TypeError "Client was passed a null or undefined query");
     respondingFailed (TypeError "Client was passed a null or undefined query")].
Proof.
  apply (app_mention_silent_on_pipeline_failure utcHost worldWithNullContent exampleMention
           (TypeError "Client was passed a null or undefined query")).
  reflexivity.
Defined.

(* ================================================================= *)
(** ** The bot identity *)

(** X20.  [obtainBotUserId] never fails.  It yields the [user_id] of the
    answer of [auth.test]; when the call is rejected, or its answer is
    [undefined] or [null], it yields [undefined] and writes the error to
    [console.error] once, and start-up goes on to log "Bot User ID is
    undefined". *)
Theorem obtainBotUserId_settles (h : Host) (authTest : Outcome JsValue) :
  fst (obtainBotUserId authTest [])
  = Ok (match (response <- authTest ;; getProp response "user_id")%outcome with
        | Ok id => id
        | Throw _ => JUndefined
        end) /\
  consoleErrors (snd (obtainBotUserId authTest []))
  = match (response <- authTest ;; getProp response "user_id")%outcome with
    | Ok _ => []
    | Throw e => [[LogText "Error fetching bot user ID:"; LogError e]]
    end /\
  ((exists e, (response <- authTest ;; getProp response "user_id")%outcome = Throw e) ->
   fst (assignBotUserId h authTest []) = Ok JUndefined /\
   exists errors,
     snd (assignBotUserId h authTest [])
     = [ConsoleError errors; ConsoleLog [LogText "Bot User ID is undefined"]]).
Proof.
  unfold assignBotUserId, obtainBotUserId, tryIO, bind, liftOutcome, emit, ret.
  destruct authTest as [response|e]; cbn [obind].
  - destruct (getProp response "user_id") as [id|e]; cbn [obind].
    + split; [reflexivity|]. split; [reflexivity|]. intros [e He]. discriminate He.
    + split; [reflexivity|]. split; [reflexivity|]. intros _.
      split; [reflexivity|]. eexists; reflexivity.
  - split; [reflexivity|]. split; [reflexivity|]. intros _.
    split; [reflexivity|]. eexists; reflexivity.
Qed.
